(** * NESendo: the Qt front end of the NES emulator (NESendo/app/gui.py)

    A shallow embedding of the real-time orchestration code of the GUI:
    the action encoder ([init_keymapping], [update_action]), the
    emulation thread's pacing controls, the audio conversion of
    [play_audio] and the save-state store ([save_state], [load_state],
    the file entry points and the file dialog).

    Python values are modelled as the code has them: dictionaries as
    [gmap]s, sets as [gset]s, Python floats (IEEE binary64) as Rocq's
    primitive floats, the [float32] samples of the audio as the binary32
    numbers of [SpecFloat], exceptions as an error monad. *)

From Stdlib Require Import ZArith Floats Ascii.
From stdpp Require Import gmap strings list fin_maps fin_sets sorting pretty.

Local Open Scope Z_scope.

(* ===================================================================== *)
(** ** Action encoder *)
(* ===================================================================== *)

Module Qt.
(** The key codes of [PyQt5.QtCore.Qt] that the mapping table uses
    (values of the [Qt::Key] enumeration). *)
Definition Key_W : Z := 0x57.
Definition Key_A : Z := 0x41.
Definition Key_S : Z := 0x53.
Definition Key_D : Z := 0x44.
Definition Key_O : Z := 0x4f.
Definition Key_P : Z := 0x50.
Definition Key_Return : Z := 0x01000004.
Definition Key_Space : Z := 0x20.
Definition Key_Escape : Z := 0x01000000.
End Qt.

(** [init_keymapping]: the NES controller mapping, key code to bit value. *)
Definition key_mapping : gmap Z Z :=
  <[Qt.Key_W := 16]> (       (* Up *)
  <[Qt.Key_A := 64]> (       (* Left *)
  <[Qt.Key_S := 32]> (       (* Down *)
  <[Qt.Key_D := 128]> (      (* Right *)
  <[Qt.Key_O := 2]> (        (* A Button *)
  <[Qt.Key_P := 1]> (        (* B Button *)
  <[Qt.Key_Return := 8]> (   (* Start *)
  <[Qt.Key_Space := 4]> ∅))))))).   (* Select *)

(** One iteration of the loop of [update_action]:
    [if key in self.key_mapping: action |= self.key_mapping[key]]. *)
Definition or_key (key : Z) (action : Z) : Z :=
  match key_mapping !! key with
  | Some bit => Z.lor action bit
  | None => action
  end.

(** The loop of [update_action] over the set of pressed keys, from
    [action = 0]. *)
Definition action_of_keys (pressed_keys : gset Z) : Z :=
  set_fold or_key 0 pressed_keys.

(** The bit values of the table, in the order of [map_to_list]. *)
Definition key_bits : list Z := (map_to_list key_mapping).*2.

(** The eight single-bit values of an 8-bit mask. *)
Definition single_bits : list Z := (λ j, 2 ^ j) <$> seqZ 0 8.

(* ===================================================================== *)
(** ** Python values, exceptions and the method monad *)
(* ===================================================================== *)

(** The values that the state dictionaries hold.  [VArray c] is the
    numpy array made of [c]: of a scalar, or of a list whose elements
    are of one type (the bytes of a buffer of the core, the lists of a
    state file), so that its [tolist()] is [c]. *)
#[local] Set Warnings "-register-all".
Inductive pyval : Type :=
| VNone
| VBool (b : bool)
| VInt (n : Z)
| VFloat (t : float)
| VStr (s : string)
| VList (l : list pyval)
| VArray (contents : pyval).

Inductive exn : Type :=
| KeyError (key : string)
| AttributeError
| TypeError
| IndexError
| ValueError
| OSError (path : string)
| UnpicklingError
| EOFError
| RuntimeError (msg : string).

(** The outcome of a call: it returns, it raises, or it never returns
    (a blocking wait on a thread that does not finish). *)
Inductive result (A : Type) : Type :=
| Ok (a : A)
| Raise (e : exn)
| Blocks.
Arguments Ok {A} a.
Arguments Raise {A} e.
Arguments Blocks {A}.

#[global] Instance result_ret : MRet result := @Ok.
#[global] Instance result_bind : MBind result := λ A B k r,
  match r with
  | Ok a => k a
  | Raise e => Raise e
  | Blocks => Blocks
  end.

(** [d[key]] *)
Definition subscript (d : gmap string pyval) (key : string) : result pyval :=
  match d !! key with
  | Some v => Ok v
  | None => Raise (KeyError key)
  end.

(** [d.get(key)] and [d.get(key, default)] *)
Definition get_default (d : gmap string pyval) (key : string) (default : pyval) : pyval :=
  match d !! key with
  | Some v => v
  | None => default
  end.
Definition get (d : gmap string pyval) (key : string) : pyval := get_default d key VNone.

Definition is_None (v : pyval) : bool :=
  match v with VNone => true | _ => false end.

(** Truth value of a Python object ([if v:]); a numpy array of more than
    one element has none. *)
Fixpoint truthy (v : pyval) : result bool :=
  match v with
  | VNone => Ok false
  | VBool b => Ok b
  | VInt n => Ok (negb (n =? 0))
  | VFloat t => Ok (negb (PrimFloat.eqb t 0%float))
  | VStr s => Ok (negb (String.eqb s ""))
  | VList l => Ok (match l with [] => false | _ => true end)
  | VArray (VList []) => Ok false
  | VArray (VList [x]) => truthy x
  | VArray (VList _) => Raise ValueError
  | VArray c => truthy c
  end.

(** [v[i]] on a list, on a [str] (its character [i], a [str] again), or
    on the first axis of an array; an array of no dimension has no
    index, and the other values cannot be subscripted. *)
Definition item (v : pyval) (i : nat) : result pyval :=
  match v with
  | VList l => match l !! i with Some x => Ok x | None => Raise IndexError end
  | VStr s =>
      match String.get i s with
      | Some c => Ok (VStr (String c EmptyString))
      | None => Raise IndexError
      end
  | VArray (VList l) =>
      match l !! i with Some x => Ok (VArray x) | None => Raise IndexError end
  | VArray _ => Raise IndexError
  | _ => Raise TypeError
  end.

(** [a.tolist()] *)
Definition tolist (v : pyval) : result pyval :=
  match v with
  | VArray c => Ok c
  | _ => Raise AttributeError
  end.

(** The shape that [np.array] finds for a value: a list has its length
    and then the shape that all its elements share, every other value
    is a scalar; nested lists that are ragged have none. *)
Fixpoint shape (v : pyval) : option (list nat) :=
  match v with
  | VList l =>
      match l with
      | [] => Some [0%nat]
      | x :: rest =>
          match shape x with
          | Some s =>
              if forallb (λ y, bool_decide (shape y = Some s)) rest
              then Some (length l :: s)
              else None
          | None => None
          end
      end
  | VArray c => shape c
  | _ => Some []
  end.


(** [np.array(v)]: an array stays the array it is; lists that are
    ragged make it raise [ValueError] ("inhomogeneous shape"). *)
Definition np_array (v : pyval) : result pyval :=
  match v with
  | VArray c => Ok (VArray c)
  | _ =>
      match shape v with
      | Some _ => Ok (VArray v)
      | None => Raise ValueError
      end
  end.
Arguments np_array : simpl never.

(** A [uint8] buffer of the core as a numpy array *)
Definition array_of_bytes (l : list Z) : pyval := VArray (VList (VInt <$> l)).

(** [a != b] where [b] is [self.rom_path] ([None] or a [str]) *)
Definition ne_rom_path (a : pyval) (b : option string) : bool :=
  match a, b with
  | VNone, None => false
  | VStr s, Some s' => negb (String.eqb s s')
  | _, _ => true
  end.

Definition pyval_of_rom_path (p : option string) : pyval :=
  match p with
  | Some s => VStr s
  | None => VNone
  end.

(** A method of an object of state [St]: it reads and mutates the
    object, and mutations made before an exception is raised stay. *)
Definition M (St A : Type) : Type := St → result A * St.

#[global] Instance M_ret {St} : MRet (M St) := λ A a s, (Ok a, s).
#[global] Instance M_bind {St} : MBind (M St) := λ A B k m s,
  match m s with
  | (Ok a, s') => k a s'
  | (Raise e, s') => (Raise e, s')
  | (Blocks, s') => (Blocks, s')
  end.

Section method_monad.
Context {St : Type}.

Definition raise {A} (e : exn) : M St A := λ s, (Raise e, s).
Definition gets {A} (f : St → A) : M St A := λ s, (Ok (f s), s).
Definition modify (f : St → St) : M St unit := λ s, (Ok tt, f s).
Definition lift {A} (r : result A) : M St A := λ s, (r, s).
Definition pass : M St unit := mret tt.

(** [try: m  except Exception as e: handler e] *)
Definition try_except {A} (m : M St A) (handler : exn → M St A) : M St A :=
  λ s, match m s with
       | (Raise e, s') => handler e s'
       | other => other
       end.
End method_monad.

(* ===================================================================== *)
(** ** The emulator core *)
(* ===================================================================== *)

Module NESEnv.
(** Modelled from the spec: the state of the native core behind an
    [NESEnv] handle ([NESendo/nes_env.py] and the C++ core are not among
    the sources): the readable [screen], [ram] and [controllers]
    buffers, and the core-internal registers that no serialized record
    holds. *)
Record core : Type := Core {
  screen : list Z;
  ram : list Z;
  controllers : list Z * list Z;
  registers : list Z;
}.

(** Modelled from the spec: an [NESEnv] handle: the live core, the one
    native backup that the handle keeps ([None] before the first
    [_backup]), and the Python-level [done] attribute, which
    [restore_emulator_state_from_data] assigns as Python-level state
    apart from the native state. *)
Record t : Type := Env {
  live : core;
  backup : option core;
  done : pyval;
}.

(** Modelled from the spec: [native_backup()] freezes the full internal
    state of the core, keyed to the handle. *)
Definition _backup (e : t) : t := Env (live e) (Some (live e)) (done e).

(** Modelled from the spec: [native_restore()] puts the frozen state
    back, exactly; the spec says nothing of a restore before any backup,
    which here leaves the core as it is. *)
Definition _restore (e : t) : t :=
  match backup e with
  | Some c => Env c (backup e) (done e)
  | None => e
  end.

(** Modelled from the spec: what running the core ([step], [reset])
    does to a handle: the live state and the terminal flag move on, the
    native backup stays. *)
Definition advance (c : core) (d : bool) (e : t) : t := Env c (backup e) (VBool d).

Definition set_done (d : pyval) (e : t) : t := Env (live e) (backup e) d.
End NESEnv.

(* ===================================================================== *)
(** ** The emulation thread *)
(* ===================================================================== *)

(** [max(a, b)] of Python on floats: [b] when [b > a], else [a]. *)
Definition py_max (a b : float) : float := if (a <? b)%float then b else a.

Module EmulationThread.
(** The attributes of [EmulationThread] that pace and control the loop
    (the FPS measurement is left out), and of the [QThread] beneath it:
    [isRunning] is [QThread.isRunning()], and [exit_latency] is the
    time in milliseconds that [run] takes to return once it can see
    [running] cleared, [None] when it never returns (a core step that
    does not come back). *)
Record t : Type := Thread {
  rom_path : string;
  env : option NESEnv.t;
  running : bool;
  paused : bool;
  fastforward : bool;
  fastforward_speed : float;
  current_action : Z;
  target_fps : Z;
  frame_duration : float;
  isRunning : bool;
  exit_latency : option nat;
}.

Definition with_env (x : option NESEnv.t) (th : t) : t :=
  Thread (rom_path th) x (running th) (paused th) (fastforward th)
    (fastforward_speed th) (current_action th) (target_fps th)
    (frame_duration th) (isRunning th) (exit_latency th).
Definition with_running (x : bool) (th : t) : t :=
  Thread (rom_path th) (env th) x (paused th) (fastforward th)
    (fastforward_speed th) (current_action th) (target_fps th)
    (frame_duration th) (isRunning th) (exit_latency th).
Definition with_paused (x : bool) (th : t) : t :=
  Thread (rom_path th) (env th) (running th) x (fastforward th)
    (fastforward_speed th) (current_action th) (target_fps th)
    (frame_duration th) (isRunning th) (exit_latency th).
Definition with_fastforward (x : bool) (th : t) : t :=
  Thread (rom_path th) (env th) (running th) (paused th) x
    (fastforward_speed th) (current_action th) (target_fps th)
    (frame_duration th) (isRunning th) (exit_latency th).
Definition with_fastforward_speed (x : float) (th : t) : t :=
  Thread (rom_path th) (env th) (running th) (paused th) (fastforward th)
    x (current_action th) (target_fps th)
    (frame_duration th) (isRunning th) (exit_latency th).
Definition with_current_action (x : Z) (th : t) : t :=
  Thread (rom_path th) (env th) (running th) (paused th) (fastforward th)
    (fastforward_speed th) x (target_fps th)
    (frame_duration th) (isRunning th) (exit_latency th).
Definition with_qthread (r : bool) (l : option nat) (th : t) : t :=
  Thread (rom_path th) (env th) (running th) (paused th) (fastforward th)
    (fastforward_speed th) (current_action th) (target_fps th)
    (frame_duration th) r l.

(** [__init__] *)
Definition init (rom : string) : t :=
  {| rom_path := rom; env := None; running := false; paused := false;
     fastforward := false; fastforward_speed := 2%float;
     current_action := 0; target_fps := 60;
     frame_duration := (1 / 60)%float;
     isRunning := false; exit_latency := None |}.

(** [QThread.start()]: the thread is running from now on; [latency] is
    how fast its loop will react to the exit flag. *)
Definition start (latency : option nat) (th : t) : t :=
  with_qthread true latency th.

(** The head of [run]: the core is created and reset, and the flags are
    set, before the loop is entered. *)
Definition run_enter (e : NESEnv.t) (th : t) : t :=
  with_fastforward false (with_paused false (with_running true (with_env (Some e) th))).

(** The [finally] of [run], and the thread finishing after it. *)
Definition run_exit (th : t) : t :=
  with_qthread false (exit_latency th) (with_env None th).

(** [run], lines 72-75: the frame duration of the current iteration. *)
Definition current_frame_duration (th : t) : float :=
  if fastforward th
  then (frame_duration th / fastforward_speed th)%float
  else frame_duration th.

Definition set_action (action : Z) (th : t) : t := with_current_action action th.
Definition pause (th : t) : t := with_paused true th.
Definition resume (th : t) : t := with_paused false th.
Definition is_paused (th : t) : bool := paused th.
Definition toggle_fastforward (th : t) : t :=
  with_fastforward (negb (fastforward th)) th.
Definition set_fastforward_speed (speed : float) (th : t) : t :=
  with_fastforward_speed (py_max 1%float speed) th.
Definition is_fastforward (th : t) : bool := fastforward th.

(** When [run] returns, counted from now: never while [running] is
    set. *)
Definition time_to_exit (th : t) : option nat :=
  if running th then None else exit_latency th.

(** [QThread.wait(deadline)], the deadline in milliseconds, [None] for
    the default (no deadline): returns [True] when the thread has
    finished or finishes in time, [False] when the deadline passes
    first, and does not return when there is neither an end of the
    thread nor a deadline. *)
Definition wait (deadline : option nat) : M t bool := λ th,
  if negb (isRunning th) then (Ok true, th)
  else match time_to_exit th, deadline with
       | Some d, None => (Ok true, run_exit th)
       | Some d, Some ms =>
           if (d <=? ms)%nat then (Ok true, run_exit th)
           else (Ok false, with_qthread true (Some (d - ms)%nat) th)
       | None, Some ms => (Ok false, th)
       | None, None => (Blocks, th)
       end.

(** [stop] *)
Definition stop : M t unit :=
  modify (with_running false);;
  wait None;;
  pass.
End EmulationThread.

(* ===================================================================== *)
(** ** Paths and files *)
(* ===================================================================== *)

Local Open Scope string_scope.

(** [os.path.basename]: what follows the last slash. *)
Fixpoint basename_from (acc : string) (p : string) : string :=
  match p with
  | EmptyString => acc
  | String c rest =>
      if Ascii.eqb c "/"%char then basename_from "" rest
      else basename_from (acc ++ String c "") rest
  end.
Definition basename (p : string) : string := basename_from "" p.

(** [os.path.splitext(p)[0]] for a [p] without a slash: [p] up to its last
    dot, when something other than dots comes before that dot. *)
Definition splitext_root (p : string) : string :=
  let cs := String.list_ascii_of_string p in
  match list_find (λ c, c = "."%char) (reverse cs) with
  | Some (i, _) =>
      let root := take (length cs - S i) cs in
      if forallb (Ascii.eqb "."%char) root then p else String.string_of_list_ascii root
  | None => p
  end.

(** [os.path.join(a, b)] *)
Definition path_join (a b : string) : string :=
  match b with
  | String "/"%char _ => b
  | _ =>
      match reverse (String.list_ascii_of_string a) with
      | [] => b
      | c :: _ => if Ascii.eqb c "/"%char then a ++ b else a ++ "/" ++ b
      end
  end.

(** What a path of the file system holds: a pickled dictionary, bytes
    that [pickle.load] rejects, or nothing at all (the file as
    [open(_, 'wb')] leaves it when nothing is written after it). *)
Inductive file_content : Type :=
| Pickled (d : gmap string pyval)
| Corrupt
| Truncated.

(* ===================================================================== *)
(** ** Audio conversion *)
(* ===================================================================== *)

(** The float chunks of the core are arrays of [float32].  NumPy keeps
    the product and the sum of a [float32] value with a Python number
    in [float32]: a Python float takes part as the [float32] nearest to
    it, and every product and every sum is rounded to nearest, ties to
    even. *)
Module F32.
Definition t : Type := spec_float.

(** The Python float written as the decimal [n/d]: the binary64
    nearest to the quotient. *)
Definition py_float (n d : Z) : spec_float :=
  SFdiv 53 1024 (binary_normalize 53 1024 n 0 false)
    (binary_normalize 53 1024 d 0 false).

(** [np.float32(x)] of a Python float *)
Definition of_py_float (x : spec_float) : t :=
  match x with
  | S754_finite s m e => binary_normalize 24 128 (cond_Zopp s (Z.pos m)) e s
  | _ => x
  end.

(** [np.float32(n)] of a Python int *)
Definition of_Z (n : Z) : t := binary_normalize 24 128 n 0 false.

Definition mul : t → t → t := SFmul 24 128.
Definition add : t → t → t := SFadd 24 128.

Definition is_nan (x : t) : bool :=
  match x with S754_nan => true | _ => false end.

(** [np.maximum] and [np.minimum]: a NaN operand gives NaN. *)
Definition maximum (a b : t) : t :=
  if is_nan a then a else if is_nan b then b
  else if SFltb a b then b else a.
Definition minimum (a b : t) : t :=
  if is_nan a then a else if is_nan b then b
  else if SFltb b a then b else a.

(** The integer that the value is cut down to, towards zero; NaN and
    the infinities have none. *)
Definition trunc (x : t) : option Z :=
  match x with
  | S754_zero _ => Some 0
  | S754_finite s m e =>
      Some (if (0 <=? e)%Z then cond_Zopp s (Z.pos m) * 2 ^ e
            else Z.quot (cond_Zopp s (Z.pos m)) (2 ^ (- e)))
  | _ => None
  end.
End F32.

(** [np.clip(x, lo, hi)], that is [minimum(maximum(x, lo), hi)] *)
Definition clip (lo hi x : F32.t) : F32.t := F32.minimum (F32.maximum x lo) hi.


(** One smoothing loop of [play_audio], in place:
    [for i in range(lag, len(a)): a[i] = p * a[i] + q * a[i-lag]] *)
Definition smooth_step (p q : F32.t) (lag : nat) (a : list F32.t) (i : nat)
    : list F32.t :=
  <[i := F32.add (F32.mul p (nth i a S754_nan))
           (F32.mul q (nth (i - lag) a S754_nan))]> a.
Definition smooth_in_place (p q : F32.t) (lag : nat) (a : list F32.t)
    : list F32.t :=
  foldl (smooth_step p q lag) a (seq lag (length a - lag)).

(** The weights of the two passes, as [float32]. *)
Definition w06 : F32.t := F32.of_py_float (F32.py_float 6 10).
Definition w04 : F32.t := F32.of_py_float (F32.py_float 4 10).
Definition w07 : F32.t := F32.of_py_float (F32.py_float 7 10).
Definition w03 : F32.t := F32.of_py_float (F32.py_float 3 10).

(** First pass:
    [for i in range(1, len(a)): a[i] = 0.6 * a[i] + 0.4 * a[i-1]] *)
Definition smooth1 : list F32.t → list F32.t := smooth_in_place w06 w04 1.

(** Second pass:
    [for i in range(2, len(a)): a[i] = 0.7 * a[i] + 0.3 * a[i-2]] *)
Definition smooth2 : list F32.t → list F32.t := smooth_in_place w07 w03 2.

(** The amplitude that a sample of 1.0 is scaled to. *)
Definition headroom : Z := 24576.

(** Two's complement wrap-around of a 16-bit signed integer. *)
Definition wrap_int16 (z : Z) : Z := (z + 32768) mod 65536 - 32768.

(** [x.astype(np.int16)] of a [float32]: the fraction is cut off
    (rounding towards zero) and the low 16 bits of the 32-bit integer
    are kept; what has no 32-bit integer (NaN, the infinities, the
    values beyond) gives 0, as the conversion of x86-64 has it, C
    leaving it open. *)
Definition astype_int16 (x : F32.t) : Z :=
  match F32.trunc x with
  | Some z =>
      if ((-2147483648 <=? z)%Z && (z <? 2147483648)%Z)%bool then wrap_int16 z else 0
  | None => 0
  end.

(** [(a * 24576).astype(np.int16)] of one sample *)
Definition scale (x : F32.t) : Z := astype_int16 (F32.mul x (F32.of_Z headroom)).

(** The conversion of a float chunk in [play_audio], lines 961-974. *)
Definition float_to_int16 (samples : list F32.t) : list Z :=
  let a := clip (F32.of_Z (-1)) (F32.of_Z 1) <$> samples in
  let a := if (2 <? length a)%nat then smooth2 (smooth1 a) else a in
  scale <$> a.


(** [a.tobytes()] of an [int16] array, little-endian. *)
Definition tobytes (pcm : list Z) : list Z :=
  pcm ≫= λ z, [z mod 256; (z `div` 256) mod 256].

(** The slices [b[i:i + size]] for [i in range(0, len(b), size)] *)
Definition chunks_of (size : nat) (b : list Z) : list (list Z) :=
  (λ k, take size (drop (k * size) b)) <$> seq 0 ((length b + size - 1) / size).

(* ===================================================================== *)
(** ** The main window *)
(* ===================================================================== *)

Inductive button : Type := Yes | No.

(** What the window shows to the user, or prints. *)
Inductive ui_event : Type :=
| MsgWarning (title : string)
| MsgCritical (title : string) (e : exn)
| MsgQuestion (title : string) (buttons : list button) (default : button)
| StatusMessage (text : string)
| StateStatus (slots : list Z)
| Printed (text : string).

(** The chunks that [play_audio] gets from the emulation thread: a numpy
    array of [float32], or of [int16]. *)
Inductive audio_data : Type :=
| FloatSamples (samples : list F32.t)
| Int16Samples (samples : list Z).

(** The device that [QAudioOutput.start()] returns: whether it is open,
    and the chunks that [write] was given, in the order of the
    calls. *)
Record QIODevice : Type := IODevice {
  isOpen : bool;
  written : list (list Z);
}.

(** [for x in l: body x] *)
Definition for_each {St A : Type} (l : list A) (body : A → M St unit) : M St unit :=
  foldr (λ x rest, body x;; rest) pass l.

Module NESendoGUI.
(** The attributes of [NESendoGUI] behind the emulation, input, audio
    and save-state methods, the files under the paths it writes, and
    the trace [ui] of what it showed, latest first.  [unwritable] are
    the paths at which writing a file raises: at those of [truncating]
    after [open(_, 'wb')] has succeeded and emptied the file (a full
    disk), at the others in [open] itself. *)
Record t : Type := GUI {
  rom_path : option string;
  emulation_thread : option EmulationThread.t;
  current_action : Z;
  pressed_keys : gset Z;
  audio_enabled : bool;
  audio_output : bool;
  audio_device : option QIODevice;
  state_slots : gmap Z (gmap string pyval);
  state_directory : string;
  files : gmap string file_content;
  unwritable : gset string;
  truncating : gset string;
  ui : list ui_event;
}.

Definition with_rom_path (x : option string) (g : t) : t :=
  GUI x (emulation_thread g) (current_action g) (pressed_keys g)
    (audio_enabled g) (audio_output g) (audio_device g) (state_slots g)
    (state_directory g) (files g) (unwritable g) (truncating g) (ui g).
Definition with_emulation_thread (x : option EmulationThread.t) (g : t) : t :=
  GUI (rom_path g) x (current_action g) (pressed_keys g)
    (audio_enabled g) (audio_output g) (audio_device g) (state_slots g)
    (state_directory g) (files g) (unwritable g) (truncating g) (ui g).
Definition with_current_action (x : Z) (g : t) : t :=
  GUI (rom_path g) (emulation_thread g) x (pressed_keys g)
    (audio_enabled g) (audio_output g) (audio_device g) (state_slots g)
    (state_directory g) (files g) (unwritable g) (truncating g) (ui g).
Definition with_pressed_keys (x : gset Z) (g : t) : t :=
  GUI (rom_path g) (emulation_thread g) (current_action g) x
    (audio_enabled g) (audio_output g) (audio_device g) (state_slots g)
    (state_directory g) (files g) (unwritable g) (truncating g) (ui g).
Definition with_audio_device (x : option QIODevice) (g : t) : t :=
  GUI (rom_path g) (emulation_thread g) (current_action g) (pressed_keys g)
    (audio_enabled g) (audio_output g) x (state_slots g)
    (state_directory g) (files g) (unwritable g) (truncating g) (ui g).
Definition with_state_slots (x : gmap Z (gmap string pyval)) (g : t) : t :=
  GUI (rom_path g) (emulation_thread g) (current_action g) (pressed_keys g)
    (audio_enabled g) (audio_output g) (audio_device g) x
    (state_directory g) (files g) (unwritable g) (truncating g) (ui g).
Definition with_files (x : gmap string file_content) (g : t) : t :=
  GUI (rom_path g) (emulation_thread g) (current_action g) (pressed_keys g)
    (audio_enabled g) (audio_output g) (audio_device g) (state_slots g)
    (state_directory g) x (unwritable g) (truncating g) (ui g).
Definition with_ui (x : list ui_event) (g : t) : t :=
  GUI (rom_path g) (emulation_thread g) (current_action g) (pressed_keys g)
    (audio_enabled g) (audio_output g) (audio_device g) (state_slots g)
    (state_directory g) (files g) (unwritable g) (truncating g) x.

Definition show (e : ui_event) : M t unit := modify (λ g, with_ui (e :: ui g) g).

(** A method of [self.emulation_thread]; on [None] the attribute access
    raises. *)
Definition on_thread {A} (m : M EmulationThread.t A) : M t A := λ g,
  match emulation_thread g with
  | Some th => let (r, th') := m th in (r, with_emulation_thread (Some th') g)
  | None => (Raise AttributeError, g)
  end.

(** A method of [self.emulation_thread.env] *)
Definition on_env (f : NESEnv.t → NESEnv.t) : M t unit :=
  on_thread (λ th,
    match EmulationThread.env th with
    | Some e => (Ok tt, EmulationThread.with_env (Some (f e)) th)
    | None => (Raise AttributeError, th)
    end).

(** [self.emulation_thread and self.emulation_thread.env] *)
Definition the_env (g : t) : option NESEnv.t :=
  th ← emulation_thread g; EmulationThread.env th.

(** [not self.rom_path] *)
Definition no_rom (g : t) : bool :=
  match rom_path g with
  | None => true
  | Some p => String.eqb p ""
  end.

(** ** Input *)

(** [update_action] *)
Definition update_action : M t unit :=
  keys ← gets pressed_keys;
  let action := action_of_keys keys in
  modify (with_current_action action);;
  th ← gets emulation_thread;
  match th with
  | Some _ => on_thread (modify (EmulationThread.set_action action))
  | None => pass
  end.

Definition is_emulation_running (g : t) : bool :=
  match emulation_thread g with
  | Some th => EmulationThread.isRunning th
  | None => false
  end.

(** [keyPressEvent] and [keyReleaseEvent], as far as the game controls
    go: the result tells whether the key was taken as a control. *)
Definition keyPressEvent (key : Z) : M t bool :=
  r ← gets is_emulation_running;
  if r && bool_decide (is_Some (key_mapping !! key)) then
    modify (λ g, with_pressed_keys ({[key]} ∪ pressed_keys g) g);;
    update_action;;
    mret true
  else mret false.

Definition keyReleaseEvent (key : Z) : M t bool :=
  r ← gets is_emulation_running;
  if r && bool_decide (is_Some (key_mapping !! key)) then
    modify (λ g, with_pressed_keys (pressed_keys g ∖ {[key]}) g);;
    update_action;;
    mret true
  else mret false.

(** ** Starting and stopping *)

(** [self.emulation_thread.isRunning()] *)
Definition thread_isRunning : M t bool :=
  on_thread (gets EmulationThread.isRunning).

(** [self.emulation_thread.wait(ms)] *)
Definition thread_wait (ms : nat) : M t unit :=
  on_thread (EmulationThread.wait (Some ms));; pass.

(** [stop_emulation] *)
Definition stop_emulation : M t unit :=
  th ← gets emulation_thread;
  match th with
  | Some _ =>
      on_thread EmulationThread.stop;;
      r ← thread_isRunning;
      (if r : bool then thread_wait 2000 else pass);;
      modify (with_emulation_thread None);;
      modify (with_audio_device None);;
      show (StatusMessage "Emulation stopped")
  | None => pass
  end.

(** [start_emulation]; [latency] is the reaction time of the thread
    that it starts. *)
Definition start_emulation (latency : option nat) : M t unit :=
  none ← gets no_rom;
  if none : bool then show (MsgWarning "No ROM")
  else
    r ← gets is_emulation_running;
    (if r : bool then
       show (StatusMessage "Stopping current emulation...");;
       stop_emulation;;
       th ← gets emulation_thread;
       match th with
       | Some _ => thread_wait 1000
       | None => pass
       end
     else pass);;
    try_except
      (rom ← gets rom_path;
       modify (with_emulation_thread
                 (Some (EmulationThread.start latency
                          (EmulationThread.init (default "" rom)))));;
       show (StatusMessage "Emulation started"))
      (λ e, show (MsgCritical "Error" e)).

(** ** Audio *)

(** [self.audio_device.write(chunk)] *)
Definition device_write (chunk : list Z) : M t unit :=
  modify (λ g,
    with_audio_device
      ((λ d, IODevice (isOpen d) (written d ++ [chunk])) <$> audio_device g) g).

(** [play_audio]; [started] is what [self.audio_output.start()] returns
    when it is called: [None], or a device that is open or not. *)
Definition play_audio (data : audio_data) (started : option bool) : M t unit :=
  enabled ← gets audio_enabled;
  output ← gets audio_output;
  if negb enabled || negb output then pass
  else
    try_except
      (let pcm := match data with
                  | FloatSamples samples => float_to_int16 samples
                  | Int16Samples samples => samples
                  end in
       dev ← gets audio_device;
       (match dev with
        | None => modify (with_audio_device ((λ o, IODevice o []) <$> started))
        | Some _ => pass
        end);;
       dev ← gets audio_device;
       match dev with
       | Some d =>
           if isOpen d then
             for_each (chunks_of 512 (tobytes pcm)) (λ chunk,
               if bool_decide (chunk ≠ []) then device_write chunk else pass)
           else pass
       | None => pass
       end)
      (λ e, show (Printed "Failed to play audio")).

(** ** Save states *)

(** [get_state_filename] *)
Definition get_state_filename (slot : option Z) (custom_path : option string)
    (g : t) : option string :=
  let by_slot :=
    n ← slot;
    let rom_name :=
      if no_rom g then "unknown"
      else splitext_root (basename (default "" (rom_path g))) in
    Some (path_join (state_directory g)
            (rom_name ++ "_slot_" ++ pretty n ++ ".state")) in
  match custom_path with
  | Some p => if String.eqb p "" then by_slot else Some p
  | None => by_slot
  end.

(** The dictionary that [capture_emulator_state] builds; [now] is
    [time.time()]. *)
Definition state_data_of (rom : option string) (env : NESEnv.t) (now : float)
    : gmap string pyval :=
  let c := NESEnv.live env in
  <["rom_path" := pyval_of_rom_path rom]> (
  <["screen" := array_of_bytes (NESEnv.screen c)]> (
  <["ram" := array_of_bytes (NESEnv.ram c)]> (
  <["controllers" := VList [array_of_bytes (NESEnv.controllers c).1;
                            array_of_bytes (NESEnv.controllers c).2]]> (
  <["done" := NESEnv.done env]> (
  <["timestamp" := VFloat now]> ∅))))).

(** [capture_emulator_state] *)
Definition capture_emulator_state (now : float) : M t (gmap string pyval) :=
  e ← gets the_env;
  match e with
  | None => raise (RuntimeError "No emulation running")
  | Some env =>
      rom ← gets rom_path;
      mret (state_data_of rom env now)
  end.

(** [restore_emulator_state] *)
Definition restore_emulator_state (state_data : gmap string pyval) : M t unit :=
  e ← gets the_env;
  match e with
  | None => raise (RuntimeError "No emulation running")
  | Some _ =>
      try_except
        (if is_None (get state_data "done") then pass
         else d ← lift (subscript state_data "done");
              on_env (NESEnv.set_done d))
        (λ e, show (Printed "Warning: Could not restore some state data"))
  end.

(** [restore_emulator_state_from_data] *)
Definition restore_emulator_state_from_data (state_data : gmap string pyval)
    : M t unit :=
  e ← gets the_env;
  match e with
  | None => raise (RuntimeError "No emulation running")
  | Some _ =>
      try_except
        ((if is_None (get state_data "done") then pass
          else d ← lift (subscript state_data "done");
               on_env (NESEnv.set_done d));;
         show (Printed "Warning: File-based savestate loading only restores basic state.");;
         show (Printed "For full state restoration, use in-memory savestates (save and load in same session)."))
        (λ e, show (Printed "Warning: Could not restore some state data"))
  end.

(** The dictionary that [save_state_to_file] pickles. *)
Definition serializable_state (state_data : gmap string pyval)
    : result (gmap string pyval) :=
  rom ← subscript state_data "rom_path";
  ram0 ← subscript state_data "ram";
  ram ← (if is_None ram0 then Ok VNone else tolist ram0);
  ctl0 ← subscript state_data "controllers";
  some ← truthy ctl0;
  ctl ← (if some : bool
         then c0 ← item ctl0 0; l0 ← tolist c0;
              c1 ← item ctl0 1; l1 ← tolist c1;
              Ok (VList [l0; l1])
         else Ok VNone);
  done ← subscript state_data "done";
  timestamp ← subscript state_data "timestamp";
  Ok (<["rom_path" := rom]> (
      <["ram" := ram]> (
      <["controllers" := ctl]> (
      <["done" := done]> (
      <["timestamp" := timestamp]> (
      <["version" := VStr "1.0"]> ∅)))))).

(** [with open(filename, 'wb') as f: pickle.dump(d, f)]; a path at
    which [open] raises is left as it is, and a path at which the write
    raises after [open] is left with the empty file. *)
Definition pickle_dump (d : gmap string pyval) (filename : option string)
    : M t unit := λ g,
  match filename with
  | None => (Raise TypeError, g)
  | Some path =>
      if bool_decide (path ∈ unwritable g) then
        if bool_decide (path ∈ truncating g)
        then (Raise (OSError path), with_files (<[path := Truncated]> (files g)) g)
        else (Raise (OSError path), g)
      else (Ok tt, with_files (<[path := Pickled d]> (files g)) g)
  end.

(** [save_state_to_file] *)
Definition save_state_to_file (state_data : gmap string pyval)
    (filename : option string) : M t unit :=
  d ← lift (serializable_state state_data);
  pickle_dump d filename.

(** [with open(filename, 'rb') as f: pickle.load(f)] *)
Definition pickle_load (filename : string) : M t (gmap string pyval) := λ g,
  match files g !! filename with
  | Some (Pickled d) => (Ok d, g)
  | Some Corrupt => (Raise UnpicklingError, g)
  | Some Truncated => (Raise EOFError, g)
  | None => (Raise (OSError filename), g)
  end.

(** The controllers of [load_state_from_file], inside their [try]. *)
Definition load_controllers (s : gmap string pyval) : result pyval :=
  ctl ← subscript s "controllers";
  c0 ← item ctl 0;
  a0 ← np_array c0;
  c1 ← item ctl 1;
  a1 ← np_array c1;
  Ok (VList [a0; a1]).

(** The RAM of [load_state_from_file], inside its [try]. *)
Definition load_ram (s : gmap string pyval) : result pyval :=
  ram ← subscript s "ram";
  np_array ram.

(** [load_state_from_file] *)
Definition load_state_from_file (filename : string) : M t (gmap string pyval) :=
  try_except
    (s ← pickle_load filename;
     let state_data : gmap string pyval :=
       <["rom_path" := get s "rom_path"]> (
       <["ram" := VNone]> (
       <["controllers" := VNone]> (
       <["done" := get_default s "done" (VBool false)]> (
       <["timestamp" := get_default s "timestamp" (VInt 0)]> ∅)))) in
     state_data ←
       (if is_None (get s "ram") then mret state_data
        else
          match load_ram s with
          | Ok ram => mret (<["ram" := ram]> state_data)
          | _ =>
              show (Printed "Warning: Could not convert RAM data");;
              mret (<["ram" := VNone]> state_data)
          end);
     if is_None (get s "controllers") then mret state_data
     else
       match load_controllers s with
       | Ok ctl => mret (<["controllers" := ctl]> state_data)
       | _ =>
           show (Printed "Warning: Could not convert controller data");;
           mret (<["controllers" := VNone]> state_data)
       end)
    (λ e, show (Printed "Error loading state file");; raise e).

(** [update_state_status] *)
Definition update_state_status : M t unit :=
  slots ← gets state_slots;
  show (StateStatus (merge_sort Z.le (elements (dom slots)))).

(** [clear_states] *)
Definition clear_states : M t unit :=
  modify (with_state_slots ∅);;
  update_state_status.

Definition set_slot (slot : Z) (state_data : gmap string pyval) : M t unit :=
  modify (λ g, with_state_slots (<[slot := state_data]> (state_slots g)) g).

(** [save_state] *)
Definition save_state (slot : Z) (now : float) : M t unit :=
  r ← gets is_emulation_running;
  if negb r then show (MsgWarning "No Emulation")
  else
    try_except
      (on_env NESEnv._backup;;
       state_data ← capture_emulator_state now;
       set_slot slot state_data;;
       filename ← gets (get_state_filename (Some slot) None);
       save_state_to_file state_data filename;;
       show (StatusMessage "State saved to slot");;
       update_state_status)
      (λ e, show (MsgCritical "Save Error" e)).

(** [if self.emulation_thread and self.emulation_thread.env:
       self.emulation_thread.env._restore()] *)
Definition restore_if_env : M t unit :=
  e ← gets the_env;
  match e with
  | Some _ => on_env NESEnv._restore
  | None => pass
  end.

(** [load_state] *)
Definition load_state (slot : Z) : M t unit :=
  r ← gets is_emulation_running;
  if negb r then show (MsgWarning "No Emulation")
  else
    try_except
      (slots ← gets state_slots;
       match slots !! slot with
       | Some _ =>
           restore_if_env;;
           show (StatusMessage "State loaded from slot")
       | None => show (MsgWarning "Limited Functionality")
       end)
      (λ e, show (MsgCritical "Load Error" e)).

(** [save_state_to_file_dialog]; [file_path] is what the file dialog
    returns, empty when it is cancelled. *)
Definition save_state_to_file_dialog (file_path : string) (now : float)
    : M t unit :=
  r ← gets is_emulation_running;
  if negb r then show (MsgWarning "No Emulation")
  else if String.eqb file_path "" then pass
  else
    try_except
      (on_env NESEnv._backup;;
       state_data ← capture_emulator_state now;
       save_state_to_file state_data (Some file_path);;
       set_slot 0 state_data;;
       show (StatusMessage "State saved to file"))
      (λ e, show (MsgCritical "Save Error" e)).

(** The ROM check of [load_state_from_file_dialog]: whether the load
    goes on.  The text of the question names the ROM of the savestate
    with [os.path.basename], which raises on what is not a string;
    [reply] is the button that the user picks. *)
Definition confirm_rom (state_data : gmap string pyval) (reply : button)
    : M t bool :=
  rom ← gets rom_path;
  if ne_rom_path (get state_data "rom_path") rom then
    match get_default state_data "rom_path" (VStr "Unknown") with
    | VStr _ =>
        show (MsgQuestion "ROM Mismatch" [Yes; No] No);;
        mret (match reply with Yes => true | No => false end)
    | _ => raise TypeError
    end
  else mret true.

(** [load_state_from_file_dialog] *)
Definition load_state_from_file_dialog (file_path : string) (reply : button)
    : M t unit :=
  r ← gets is_emulation_running;
  if negb r then show (MsgWarning "No Emulation")
  else if String.eqb file_path "" then pass
  else
    try_except
      (state_data ← load_state_from_file file_path;
       proceed ← confirm_rom state_data reply;
       if proceed : bool then
         set_slot 0 state_data;;
         restore_if_env;;
         show (StatusMessage "State loaded from file")
       else pass)
      (λ e, show (MsgCritical "Load Error" e)).

(** The running session of the window, if there is one: the thread,
    when [is_emulation_running] holds, and the core that it created. *)
Definition session (g : t) : option (EmulationThread.t * NESEnv.t) :=
  th ← emulation_thread g;
  if EmulationThread.isRunning th
  then e ← EmulationThread.env th; Some (th, e)
  else None.

(** The emulation thread running the core between two calls of the
    window: the live state and the terminal flag move on. *)
Definition core_runs (c : NESEnv.core) (d : bool) (g : t) : t :=
  (on_env (NESEnv.advance c d) g).2.

End NESendoGUI.

(* ===================================================================== *)
(** ** Further methods of the thread and of the window *)
(* ===================================================================== *)

(** [min(a, b)] of Python on floats: [b] when [b < a], else [a]. *)
Definition py_min (a b : float) : float := if (b <? a)%float then b else a.

(** [l.remove(x)]: [l] without the first [x] ([l] itself here when there
    is none, where Python raises: the callers test [x in l] first). *)
Fixpoint remove_first (x : string) (l : list string) : list string :=
  match l with
  | [] => []
  | y :: rest => if decide (x = y) then rest else y :: remove_first x rest
  end.

Module Window.
Local Open Scope string_scope.

(** *** Methods on the state of [NESendoGUI.t] *)

(** A method of the thread, under the guard
    [if self.emulation_thread and self.is_emulation_running():] *)
Definition when_running (f : EmulationThread.t → EmulationThread.t) (text : string)
    : M NESendoGUI.t unit :=
  r ← gets NESendoGUI.is_emulation_running;
  if r : bool then
    NESendoGUI.on_thread (modify f);;
    NESendoGUI.show (StatusMessage text)
  else pass.

(** [pause_emulation] and [resume_emulation] *)
Definition pause_emulation : M NESendoGUI.t unit :=
  when_running EmulationThread.pause "Emulation paused".
Definition resume_emulation : M NESendoGUI.t unit :=
  when_running EmulationThread.resume "Emulation resumed".

(** [toggle_fastforward] of the window (the status texts without the
    speed that the code appends) *)
Definition toggle_fastforward : M NESendoGUI.t unit :=
  r ← gets NESendoGUI.is_emulation_running;
  if r : bool then
    NESendoGUI.on_thread (modify EmulationThread.toggle_fastforward);;
    on ← NESendoGUI.on_thread (gets EmulationThread.is_fastforward);
    NESendoGUI.show (StatusMessage (if on : bool then "Fast forward enabled"
                                    else "Fast forward disabled"))
  else pass.

(** [set_fastforward_speed] of the window *)
Definition set_fastforward_speed (speed : float) : M NESendoGUI.t unit :=
  r ← gets NESendoGUI.is_emulation_running;
  if r : bool then
    NESendoGUI.on_thread (modify (EmulationThread.set_fastforward_speed speed));;
    on ← NESendoGUI.on_thread (gets EmulationThread.is_fastforward);
    if on : bool then NESendoGUI.show (StatusMessage "Fast forward speed set")
    else pass
  else pass.

(** The file of a slot in [load_existing_states] *)
Definition slot_file (g : NESendoGUI.t) (slot : Z) : string :=
  path_join (NESendoGUI.state_directory g)
    (splitext_root (basename (default "" (NESendoGUI.rom_path g)))
       ++ "_slot_" ++ pretty slot ++ ".state").

(** One round of the loop of [load_existing_states]; [os.path.exists]
    holds of the paths that have a file. *)
Definition load_existing_state (slot : Z) : M NESendoGUI.t unit :=
  filename ← gets (λ g, slot_file g slot);
  present ← gets (λ g, bool_decide (is_Some (NESendoGUI.files g !! filename)));
  if present : bool then
    try_except
      (state_data ← NESendoGUI.load_state_from_file filename;
       NESendoGUI.set_slot slot state_data)
      (λ e, NESendoGUI.show (Printed "Failed to load state slot"))
  else pass.

(** [load_existing_states] *)
Definition load_existing_states : M NESendoGUI.t unit :=
  none ← gets NESendoGUI.no_rom;
  if none : bool then pass
  else
    for_each [1; 2; 3; 4] load_existing_state;;
    NESendoGUI.update_state_status.

(** [closeEvent] *)
Definition closeEvent : M NESendoGUI.t unit :=
  th ← gets NESendoGUI.emulation_thread;
  (match th with
   | Some _ => NESendoGUI.on_thread EmulationThread.stop
   | None => pass
   end);;
  modify (λ g,
    NESendoGUI.GUI (NESendoGUI.rom_path g) (NESendoGUI.emulation_thread g)
      (NESendoGUI.current_action g) (NESendoGUI.pressed_keys g)
      (NESendoGUI.audio_enabled g) false None (NESendoGUI.state_slots g)
      (NESendoGUI.state_directory g) (NESendoGUI.files g)
      (NESendoGUI.unwritable g) (NESendoGUI.truncating g)
      (NESendoGUI.ui g)).

(** *** The window with its recent files and its volume *)

(** [NESendoGUI.t] with the attributes of the recent-files menu and of
    the volume: [recent_files], what [save_recent_files] stored in the
    settings, the labels of the recent menu, [master_volume], and the
    volumes last handed to the audio output and to the core. *)
Record t : Type := Win {
  gui : NESendoGUI.t;
  recent_files : list string;
  stored_recent : list string;
  recent_menu : list string;
  master_volume : float;
  output_volume : option float;
  core_volume : option float;
}.

Definition with_gui (x : NESendoGUI.t) (w : t) : t :=
  Win x (recent_files w) (stored_recent w) (recent_menu w)
    (master_volume w) (output_volume w) (core_volume w).

Definition on_gui {A} (m : M NESendoGUI.t A) : M t A := λ w,
  let (r, g) := m (gui w) in (r, with_gui g w).

(** The labels that [update_recent_menu] puts in the menu *)
Definition recent_labels (files : list string) : list string :=
  match files with
  | [] => ["No recent files"]
  | _ => imap (λ i path, "&" ++ pretty (S i) ++ " " ++ basename path) files
  end.

(** [self.recent_files = files; self.save_recent_files();
     self.update_recent_menu()] *)
Definition set_recent (files : list string) (w : t) : t :=
  Win (gui w) files files (recent_labels files)
    (master_volume w) (output_volume w) (core_volume w).

(** The list that [add_to_recent_files] leaves in [self.recent_files] *)
Definition added_recent (file_path : string) (files : list string) : list string :=
  let files :=
    if bool_decide (file_path ∈ files) then remove_first file_path files
    else files in
  take 10 (file_path :: files).

(** [add_to_recent_files] *)
Definition add_to_recent_files (file_path : string) : M t unit :=
  modify (λ w, set_recent (added_recent file_path (recent_files w)) w).

(** What [load_rom] and [load_recent_rom] do once they have the file. *)
Definition switch_rom (file_path : string) (recent : bool) (latency : option nat)
    : M t unit :=
  r ← gets (NESendoGUI.is_emulation_running ∘ gui);
  (if r : bool then
     on_gui (NESendoGUI.show (StatusMessage "Stopping current emulation...");;
             NESendoGUI.stop_emulation)
   else pass);;
  on_gui (modify (NESendoGUI.with_rom_path (Some file_path)));;
  on_gui (NESendoGUI.show (StatusMessage "Loaded ROM"));;
  (if recent then pass else add_to_recent_files file_path);;
  on_gui NESendoGUI.clear_states;;
  try_except (on_gui (NESendoGUI.start_emulation latency))
    (λ e, on_gui (NESendoGUI.show (MsgCritical "Start Error" e))).

(** [load_rom]; [file_path] is what the file dialog returns, empty when
    it is cancelled. *)
Definition load_rom (file_path : string) (latency : option nat) : M t unit :=
  if String.eqb file_path "" then pass
  else switch_rom file_path false latency.

(** [load_recent_rom]; [present] is [os.path.exists(file_path)]. *)
Definition load_recent_rom (file_path : string) (present : bool)
    (latency : option nat) : M t unit :=
  if present then switch_rom file_path true latency
  else
    files ← gets recent_files;
    (if bool_decide (file_path ∈ files)
     then modify (set_recent (remove_first file_path files))
     else pass);;
    on_gui (NESendoGUI.show (MsgWarning "File Not Found")).

(** [set_audio_volume] *)
Definition set_audio_volume (volume : float) (w : t) : t :=
  let v := py_max 0 (py_min 1 volume) in
  Win (gui w) (recent_files w) (stored_recent w) (recent_menu w) v
    (if NESendoGUI.audio_output (gui w) then Some v else output_volume w)
    (match NESendoGUI.the_env (gui w) with
     | Some _ => Some v
     | None => core_volume w
     end).

(** [mute_audio] *)
Definition mute_audio : M t unit :=
  modify (set_audio_volume 0);;
  on_gui (NESendoGUI.show (StatusMessage "Audio muted")).
End Window.

(* ===================================================================== *)
(** ** Sessions to run the code on *)
(* ===================================================================== *)

Module Example.
Local Open Scope string_scope.

Definition core0 : NESEnv.core :=
  NESEnv.Core [12; 34; 56] [7; 8] ([0; 1], [1; 0]) [42].
Definition core1 : NESEnv.core :=
  NESEnv.Core [65; 43; 21] [9; 9] ([1; 1], [0; 0]) [43].
Definition core2 : NESEnv.core :=
  NESEnv.Core [0; 0; 0] [5; 6] ([0; 0], [0; 0]) [44].

Definition env0 : NESEnv.t := NESEnv.Env core0 None (VBool false).

(** A thread in its loop, which reacts to the exit flag within 5 ms. *)
Definition thread0 : EmulationThread.t :=
  EmulationThread.run_enter env0
    (EmulationThread.start (Some 5%nat) (EmulationThread.init "/roms/mario.nes")).

(** A thread in its loop that does not come back from a core step. *)
Definition stuck_thread : EmulationThread.t :=
  EmulationThread.run_enter env0
    (EmulationThread.start None (EmulationThread.init "/roms/mario.nes")).

Definition states : string := "/home/user/.nesendo/states".
Definition slot1_file : string := "/home/user/.nesendo/states/mario_slot_1.state".

(** A window with a running session and no saved state. *)
Definition gui0 : NESendoGUI.t :=
  {| NESendoGUI.rom_path := Some "/roms/mario.nes";
     NESendoGUI.emulation_thread := Some thread0;
     NESendoGUI.current_action := 0;
     NESendoGUI.pressed_keys := ∅;
     NESendoGUI.audio_enabled := true;
     NESendoGUI.audio_output := true;
     NESendoGUI.audio_device := None;
     NESendoGUI.state_slots := ∅;
     NESendoGUI.state_directory := states;
     NESendoGUI.files := ∅;
     NESendoGUI.unwritable := ∅;
     NESendoGUI.truncating := ∅;
     NESendoGUI.ui := [] |}.

(** The same window with no ROM loaded and no session. *)
Definition gui_no_rom : NESendoGUI.t :=
  NESendoGUI.with_emulation_thread None (NESendoGUI.with_rom_path None gui0).

(** The window whose emulation thread is stuck. *)
Definition gui_stuck : NESendoGUI.t :=
  NESendoGUI.with_emulation_thread (Some stuck_thread) gui0.

(** The window after slot 1 was saved and the core ran on, with the
    file of slot 1 now write-protected. *)
Definition gui_protected : NESendoGUI.t :=
  let g := (NESendoGUI.save_state 1 1%float gui0).2 in
  let g := NESendoGUI.core_runs core1 false g in
  NESendoGUI.GUI (NESendoGUI.rom_path g) (NESendoGUI.emulation_thread g)
    (NESendoGUI.current_action g) (NESendoGUI.pressed_keys g)
    (NESendoGUI.audio_enabled g) (NESendoGUI.audio_output g)
    (NESendoGUI.audio_device g) (NESendoGUI.state_slots g)
    (NESendoGUI.state_directory g) (NESendoGUI.files g)
    {[slot1_file]} ∅ (NESendoGUI.ui g).

(** The same window on a disk that is full: the file of slot 1 can be
    opened for writing, and the write then fails. *)
Definition gui_disk_full : NESendoGUI.t :=
  let g := gui_protected in
  NESendoGUI.GUI (NESendoGUI.rom_path g) (NESendoGUI.emulation_thread g)
    (NESendoGUI.current_action g) (NESendoGUI.pressed_keys g)
    (NESendoGUI.audio_enabled g) (NESendoGUI.audio_output g)
    (NESendoGUI.audio_device g) (NESendoGUI.state_slots g)
    (NESendoGUI.state_directory g) (NESendoGUI.files g)
    {[slot1_file]} {[slot1_file]} (NESendoGUI.ui g).

(** A window with no session, whose ROM path names no file. *)
Definition gui_missing_rom : NESendoGUI.t :=
  NESendoGUI.with_emulation_thread None
    (NESendoGUI.with_rom_path (Some "/roms/missing.nes") gui0).

(** The window after slot 1 was saved, the core ran on and the slots in
    memory were cleared: of the state of slot 1 there is only the file. *)
Definition gui_file_only : NESendoGUI.t :=
  let g := (NESendoGUI.save_state 1 1%float gui0).2 in
  (NESendoGUI.clear_states (NESendoGUI.core_runs core1 true g)).2.

(** What [load_state_from_file] reads from the file of slot 1 there. *)
Definition loaded_state : gmap string pyval :=
  match (NESendoGUI.load_state_from_file slot1_file gui_file_only).1 with
  | Ok state_data => state_data
  | _ => ∅
  end.

(** The window with slot 1 saved, once another ROM is the current one. *)
Definition gui_other_rom : NESendoGUI.t :=
  NESendoGUI.with_rom_path (Some "/roms/zelda.nes")
    (NESendoGUI.save_state 1 1%float gui0).2.

(** The dictionary pickled in the file of slot 1 there. *)
Definition slot1_pickle : gmap string pyval :=
  match NESendoGUI.files gui_other_rom !! slot1_file with
  | Some (Pickled d) => d
  | _ => ∅
  end.
End Example.

Module ExampleWindow.
Local Open Scope string_scope.

(** The window of [Example.gui0] with two recent files, at full volume. *)
Definition window0 : Window.t :=
  Window.Win Example.gui0 ["/roms/mario.nes"; "/roms/zelda.nes"]
    ["/roms/mario.nes"; "/roms/zelda.nes"]
    ["&1 mario.nes"; "&2 zelda.nes"] 1%float None None.
End ExampleWindow.

(* ===================================================================== *)
(** * Properties *)
(* ===================================================================== *)

Local Close Scope string_scope.

(** ** The action encoder *)

Section action_encoder.
Implicit Types (keys : list Z) (pressed : gset Z) (i key bit : Z).

Lemma or_key_testbit key action i :
  Z.testbit (or_key key action) i = true ↔
  Z.testbit action i = true ∨
  ∃ bit, key_mapping !! key = Some bit ∧ Z.testbit bit i = true.
Proof.
  unfold or_key. destruct (key_mapping !! key) as [bit|] eqn:E.
  - rewrite Z.lor_spec, orb_true_iff. split.
    + intros [H|H]; [by left | right; eauto].
    + intros [H|(bit' & [= <-] & H)]; auto.
  - split; [by left |]. by intros [H|(bit' & [=] & _)].
Qed.

Lemma foldr_or_key_testbit keys i :
  Z.testbit (foldr or_key 0 keys) i = true ↔
  ∃ key bit, key ∈ keys ∧ key_mapping !! key = Some bit ∧
             Z.testbit bit i = true.
Proof.
  induction keys as [|k keys IH]; simpl.
  - rewrite Z.testbit_0_l. split; [done |].
    intros (key & bit & Hin & _). by apply elem_of_nil in Hin.
  - rewrite or_key_testbit, IH. split.
    + intros [(key & bit & Hin & H)|(bit & H)].
      * exists key, bit. rewrite elem_of_cons. auto.
      * exists k, bit. rewrite elem_of_cons. auto.
    + intros (key & bit & Hin & H).
      apply elem_of_cons in Hin as [->|Hin]; eauto 6.
Qed.

Lemma action_of_keys_testbit pressed i :
  Z.testbit (action_of_keys pressed) i = true ↔
  ∃ key bit, key ∈ pressed ∧ key_mapping !! key = Some bit ∧
             Z.testbit bit i = true.
Proof.
  unfold action_of_keys, set_fold; simpl. rewrite foldr_or_key_testbit.
  by setoid_rewrite elem_of_elements.
Qed.

Lemma update_action_result (g : NESendoGUI.t) :
  let (r, g') := NESendoGUI.update_action g in
  r = Ok tt ∧
  NESendoGUI.current_action g' = action_of_keys (NESendoGUI.pressed_keys g) ∧
  NESendoGUI.pressed_keys g' = NESendoGUI.pressed_keys g ∧
  EmulationThread.current_action <$> NESendoGUI.emulation_thread g' =
    (λ _, action_of_keys (NESendoGUI.pressed_keys g)) <$> NESendoGUI.emulation_thread g.
Proof.
  destruct g as [rom [th|] act keys ae ao ad slots dir fs uw tr ui]; cbn; done.
Qed.
End action_encoder.

(** C7. For every set of held keys, the action that [update_action]
    computes, stores and hands to the emulation thread is the bitwise OR
    of the bit values of the held keys that the mapping table has: a bit
    of it is set exactly when a held, mapped key has that bit set; a key
    outside the table changes nothing; no key gives 0; and the table has
    exactly 8 entries, whose values are the 8 single bits of a byte. *)
Theorem update_action_is_or_of_held_mapped_keys :
  (∀ g : NESendoGUI.t,
     (NESendoGUI.update_action g).1 = Ok tt ∧
     NESendoGUI.current_action (NESendoGUI.update_action g).2
       = action_of_keys (NESendoGUI.pressed_keys g) ∧
     EmulationThread.current_action
       <$> NESendoGUI.emulation_thread (NESendoGUI.update_action g).2
       = (λ _, action_of_keys (NESendoGUI.pressed_keys g))
           <$> NESendoGUI.emulation_thread g) ∧
  (∀ (pressed : gset Z) (i : Z),
     Z.testbit (action_of_keys pressed) i = true ↔
     ∃ key bit, key ∈ pressed ∧ key_mapping !! key = Some bit ∧
                Z.testbit bit i = true) ∧
  (∀ (pressed : gset Z) (key : Z),
     key_mapping !! key = None →
     action_of_keys ({[key]} ∪ pressed) = action_of_keys pressed) ∧
  action_of_keys ∅ = 0 ∧
  size key_mapping = 8%nat ∧
  key_bits ≡ₚ single_bits.
Proof.
  split_and!.
  - intros g. pose proof (update_action_result g) as H.
    destruct (NESendoGUI.update_action g) as [r g'].
    destruct H as (? & ? & ? & ?). auto.
  - apply action_of_keys_testbit.
  - intros pressed key Hkey. apply Z.bits_inj'. intros i _.
    apply eq_true_iff_eq. rewrite !action_of_keys_testbit.
    split; intros (k & bit & Hin & Hbit & Hi).
    + apply elem_of_union in Hin as [Hin|Hin]; [|by eauto].
      apply elem_of_singleton in Hin as ->. congruence.
    + exists k, bit. split; [set_solver | done].
  - reflexivity.
  - reflexivity.
  - vm_compute. by eapply (Permutation_sym), (bool_decide_unpack _).
Qed.

(** ** Fastforward pacing *)

Section float_order.
Local Open Scope float_scope.
Implicit Types x y : float.

Lemma SFcompare_antisym (a b : spec_float) c :
  SFcompare a b = Some c → SFcompare b a = Some (CompOpp c).
Proof.
  destruct a as [[]| []| |[] m1 e1], b as [[]| []| |[] m2 e2];
    simpl; intros [= <-]; try reflexivity;
    rewrite (Z.compare_antisym e1 e2);
    destruct (e1 ?= e2)%Z; simpl; try reflexivity;
    by rewrite (Pos.compare_cont_antisym m1 m2 Eq), ?CompOpp_involutive.
Qed.

Lemma ltb_leb x y : (x <? y) = true → (x <=? y) = true.
Proof.
  rewrite ltb_spec, leb_spec. unfold SFltb, SFleb.
  by destruct (SFcompare _ _) as [[]|].
Qed.

Lemma ltb_asym x y : (x <? y) = true → (y <? x) = false.
Proof.
  rewrite !ltb_spec. unfold SFltb.
  destruct (SFcompare (Prim2SF x) (Prim2SF y)) as [c|] eqn:E; [|done].
  rewrite (SFcompare_antisym _ _ _ E). by destruct c.
Qed.

(** The only float that compares equal to 1.0 is 1.0. *)
Lemma leb_one_not_ltb x : (1 <=? x) = true → (1 <? x) = false → x = 1.
Proof.
  rewrite leb_spec, ltb_spec. unfold SFleb, SFltb.
  intros Hle Hlt. rewrite <- (SF2Prim_Prim2SF x).
  change 1 with (SF2Prim (Prim2SF 1)). f_equal.
  change (Prim2SF 1) with (S754_finite false 4503599627370496 (-52)) in *.
  destruct (Prim2SF x) as [[]| []| |[] m e];
    cbv beta iota delta [SFcompare] in Hle, Hlt; try done.
  change (Pos.compare_cont Eq ?p ?q) with (Pos.compare p q) in Hle, Hlt.
  revert Hle Hlt.
  destruct (Z.compare_spec (-52) e) as [He| |]; try done.
  destruct (Pos.compare_spec 4503599627370496 m) as [Hm| |]; try done.
  by rewrite <- He, <- Hm.
Qed.

Lemma py_max_one_ge x : (1 <=? py_max 1 x) = true.
Proof.
  unfold py_max. destruct (1 <? x) eqn:E; [by apply ltb_leb | reflexivity].
Qed.
End float_order.

(** C8. [set_fastforward_speed] stores the requested multiplier when it
    is at least 1.0 and stores 1.0 when it is below (or not a number), so
    that the stored multiplier is never below 1.0; and the frame
    duration that the loop uses is the base duration divided by the
    stored multiplier while fastforward is on, and the base duration
    while it is off. *)
Theorem fastforward_speed_is_clamped_and_divides_the_interval
    (speed : float) (th : EmulationThread.t) :
  let th' := EmulationThread.set_fastforward_speed speed th in
  (1 <=? EmulationThread.fastforward_speed th')%float = true ∧
  ((speed <? 1)%float = true → EmulationThread.fastforward_speed th' = 1%float) ∧
  ((1 <=? speed)%float = true → EmulationThread.fastforward_speed th' = speed) ∧
  EmulationThread.fastforward th' = EmulationThread.fastforward th ∧
  EmulationThread.frame_duration th' = EmulationThread.frame_duration th ∧
  (EmulationThread.fastforward th = true →
   EmulationThread.current_frame_duration th
     = (EmulationThread.frame_duration th / EmulationThread.fastforward_speed th)%float ∧
   EmulationThread.current_frame_duration th'
     = (EmulationThread.frame_duration th / EmulationThread.fastforward_speed th')%float) ∧
  (EmulationThread.fastforward th = false →
   EmulationThread.current_frame_duration th = EmulationThread.frame_duration th ∧
   EmulationThread.current_frame_duration th' = EmulationThread.frame_duration th).
Proof.
  destruct th as [rom env run paused ff ffs act fps fd isr lat].
  cbn -[PrimFloat.leb PrimFloat.ltb PrimFloat.div py_max]. split_and!.
  - apply py_max_one_ge.
  - intros Hlt. unfold py_max. by rewrite (ltb_asym _ _ Hlt).
  - intros Hle. unfold py_max. destruct (1 <? speed)%float eqn:E; [done|].
    symmetry. by apply leb_one_not_ltb.
  - done.
  - done.
  - intros ->. done.
  - intros ->. done.
Qed.

(** ** The audio conversion *)

Section list_cells.
Context {A : Type}.
Implicit Types (l : list A) (i j : nat) (x d : A).



Lemma Forall_nth_default (P : A → Prop) l i d :
  P d → Forall P l → P (nth i l d).
Proof.
  intros Hd Hl. rewrite nth_lookup. destruct (l !! i) as [x|] eqn:E; [|done].
  by eapply Forall_lookup_1.
Qed.
End list_cells.

Section smoothing.
Variables (p q : F32.t) (lag : nat).
Hypothesis lag_pos : (1 ≤ lag)%nat.
Implicit Types (a b : list F32.t) (i k : nat).


End smoothing.

Section quantization.
Implicit Types (x y c : F32.t) (samples : list F32.t) (z : Z).








End quantization.

Section chunks.
Implicit Types (b : list Z) (size n k : nat).

Lemma chunks_concat size b n :
  (length b ≤ n * size)%nat →
  concat ((λ k, take size (drop (k * size) b)) <$> seq 0 n) = b.
Proof.
  revert b. induction n as [|n IH]; intros b Hlen.
  - simpl in *. destruct b; [done | simpl in Hlen; lia].
  - rewrite <- cons_seq, <- fmap_S_seq, fmap_cons, <- list_fmap_compose. simpl.
    rewrite drop_0.
    transitivity (take size b ++ drop size b)%list; [|apply take_drop]. f_equal.
    etrans; [|apply (IH (drop size b)); rewrite length_drop; lia].
    f_equal. apply list_fmap_ext. intros _ k _. simpl.
    by rewrite drop_drop, (Nat.add_comm size).
Qed.

Lemma chunks_of_concat size b : (0 < size)%nat → concat (chunks_of size b) = b.
Proof.
  intros Hsize. apply chunks_concat.
  pose proof (Nat.div_mod_eq (length b + size - 1) size) as Hdiv.
  pose proof (Nat.mod_upper_bound (length b + size - 1) size ltac:(lia)) as Hmod.
  nia.
Qed.

Lemma chunks_of_sizes size b :
  (0 < size)%nat →
  Forall (λ c, (0 < length c ≤ size)%nat) (chunks_of size b).
Proof.
  intros Hsize. apply Forall_fmap, Forall_forall. intros k Hk%elem_of_seq.
  simpl. rewrite length_take, length_drop.
  pose proof (Nat.div_mod_eq (length b + size - 1) size) as Hdiv.
  pose proof (Nat.mod_upper_bound (length b + size - 1) size ltac:(lia)) as Hmod.
  nia.
Qed.
End chunks.

Section device.
Implicit Types (g : NESendoGUI.t) (d : QIODevice) (chunks : list (list Z)).

Lemma device_write_open (c : list Z) g d :
  NESendoGUI.audio_device g = Some d →
  NESendoGUI.device_write c g
  = (Ok tt,
     NESendoGUI.with_audio_device
       (Some (IODevice (isOpen d) (written d ++ [c]))) g).
Proof. intros Hd. unfold NESendoGUI.device_write, modify. by rewrite Hd. Qed.

(** The loop of writes of [play_audio] on a device: every chunk that
    is not empty is written, in order. *)
Lemma write_chunks chunks g d :
  NESendoGUI.audio_device g = Some d →
  Forall (λ c, c ≠ []) chunks →
  for_each chunks
    (λ chunk, if bool_decide (chunk ≠ []) then NESendoGUI.device_write chunk
              else pass) g
  = (Ok tt,
     NESendoGUI.with_audio_device
       (Some (IODevice (isOpen d) (written d ++ chunks))) g).
Proof.
  intros Hd Hne. revert g d Hd.
  induction Hne as [|c chunks Hc Hne IH]; intros g d Hd.
  - destruct g, d; simpl in *. rewrite app_nil_r. by subst.
  - change (for_each (c :: chunks) ?body g)
      with ((body c;; for_each chunks body) g).
    cbv beta. rewrite (bool_decide_eq_true_2 _ Hc).
    unfold mbind, M_bind. rewrite (device_write_open c g d Hd).
    erewrite IH; [|by destruct g].
    destruct g; simpl. by rewrite <- (assoc_L (++)).
Qed.
End device.

(** What [play_audio] does with a chunk when audio is on and the device
    is open, or is opened by [start()]: it returns, and the device has
    got the bytes of the converted samples, in slices of 512. *)
Lemma play_audio_writes (data : audio_data) (started : option bool)
    (g : NESendoGUI.t) (heard : list (list Z)) :
  NESendoGUI.audio_enabled g = true →
  NESendoGUI.audio_output g = true →
  (NESendoGUI.audio_device g = None ∧ started = Some true ∧ heard = []) ∨
  NESendoGUI.audio_device g = Some (IODevice true heard) →
  NESendoGUI.play_audio data started g =
    (Ok tt,
     NESendoGUI.with_audio_device
       (Some (IODevice true
                (heard ++
                 chunks_of 512 (tobytes match data with
                                        | FloatSamples samples => float_to_int16 samples
                                        | Int16Samples samples => samples
                                        end))))
       g).
Proof.
  intros Hen Hout Hdev.
  set (pcm := match data with
              | FloatSamples samples => float_to_int16 samples
              | Int16Samples samples => samples
              end).
  assert (Forall (λ c : list Z, c ≠ []) (chunks_of 512 (tobytes pcm))) as Hne.
  { eapply Forall_impl; [apply (chunks_of_sizes 512); lia|].
    intros c Hc ->. simpl in Hc. lia. }
  unfold NESendoGUI.play_audio, mbind, M_bind, gets, try_except, modify, pass,
    mret, M_ret.
  rewrite Hen, Hout. simpl. fold pcm.
  destruct Hdev as [(Hd & -> & ->)|Hd]; rewrite Hd; simpl.
  - erewrite write_chunks; [|by destruct g|done]. by destruct g.
  - rewrite Hd. simpl. erewrite write_chunks; [|done..]. done.
Qed.

(** With no device to write to ([start()] gives none, or the device is
    not open) the chunk is dropped. *)
Lemma play_audio_drops (data : audio_data) (started : option bool)
    (g : NESendoGUI.t) :
  NESendoGUI.audio_enabled g = true →
  NESendoGUI.audio_output g = true →
  match NESendoGUI.audio_device g with
  | Some d => isOpen d = false
  | None => started ≠ Some true
  end →
  (NESendoGUI.play_audio data started g).1 = Ok tt ∧
  NESendoGUI.audio_device (NESendoGUI.play_audio data started g).2
    = match NESendoGUI.audio_device g with
      | Some d => Some d
      | None => (λ o, IODevice o []) <$> started
      end ∧
  NESendoGUI.ui (NESendoGUI.play_audio data started g).2 = NESendoGUI.ui g.
Proof.
  destruct g as [rom th act keys [] [] [[[] heard]|] slots dir fs uw tr ui];
    destruct started as [[]|]; simpl; intros Hen Hout Hd; done.
Qed.



(** ** The save-state store *)

(** Runs a method on a state given by its constructors. *)
Ltac run :=
  cbv beta iota zeta delta
    [mbind mret M_bind M_ret gets modify lift pass raise try_except
     NESendoGUI.show NESendoGUI.on_thread NESendoGUI.on_env
     NESendoGUI.the_env NESendoGUI.is_emulation_running NESendoGUI.no_rom
     NESendoGUI.set_slot NESendoGUI.restore_if_env
     NESendoGUI.thread_isRunning NESendoGUI.thread_wait
     NESendoGUI.capture_emulator_state NESendoGUI.update_state_status
     NESendoGUI.save_state_to_file NESendoGUI.pickle_dump NESendoGUI.pickle_load
     NESendoGUI.emulation_thread NESendoGUI.rom_path NESendoGUI.state_slots
     NESendoGUI.files NESendoGUI.unwritable NESendoGUI.truncating NESendoGUI.ui
     NESendoGUI.current_action NESendoGUI.pressed_keys NESendoGUI.audio_enabled
     NESendoGUI.audio_output NESendoGUI.audio_device NESendoGUI.state_directory
     NESendoGUI.with_emulation_thread NESendoGUI.with_state_slots
     NESendoGUI.with_files NESendoGUI.with_ui NESendoGUI.with_audio_device
     EmulationThread.env EmulationThread.isRunning EmulationThread.with_env
     EmulationThread.rom_path EmulationThread.running EmulationThread.paused
     EmulationThread.fastforward EmulationThread.fastforward_speed
     EmulationThread.current_action EmulationThread.target_fps
     EmulationThread.frame_duration EmulationThread.exit_latency
     option_bind option_ret fst snd negb].

Section store.
Implicit Types (g : NESendoGUI.t) (th : EmulationThread.t) (e : NESEnv.t).
Implicit Types (slot : Z) (now : float) (path : string).

Lemma session_inv g th e :
  NESendoGUI.session g = Some (th, e) →
  NESendoGUI.emulation_thread g = Some th ∧
  EmulationThread.isRunning th = true ∧
  EmulationThread.env th = Some e.
Proof.
  unfold NESendoGUI.session. intros H.
  destruct (NESendoGUI.emulation_thread g) as [th'|]; simpl in H; [|done].
  destruct (EmulationThread.isRunning th') eqn:Hr; [|done].
  destruct (EmulationThread.env th') as [e'|] eqn:He; simpl in H; [|done].
  by injection H as <- <-.
Qed.

(** What is pickled of a captured state: all of it but the screen,
    the arrays as lists. *)
Lemma serializable_state_of_capture rom e now :
  NESendoGUI.serializable_state (NESendoGUI.state_data_of rom e now) =
  Ok (<["rom_path" := pyval_of_rom_path rom]> (
      <["ram" := VList (VInt <$> NESEnv.ram (NESEnv.live e))]> (
      <["controllers" :=
          VList [VList (VInt <$> (NESEnv.controllers (NESEnv.live e)).1);
                 VList (VInt <$> (NESEnv.controllers (NESEnv.live e)).2)]]> (
      <["done" := NESEnv.done e]> (
      <["timestamp" := VFloat now]> (
      <["version" := VStr "1.0"]> ∅)))))).
Proof.
  unfold NESendoGUI.serializable_state, NESendoGUI.state_data_of, subscript.
  by simplify_map_eq.
Qed.

Lemma get_state_filename_slot g slot :
  ∃ path, NESendoGUI.get_state_filename (Some slot) None g = Some path.
Proof. unfold NESendoGUI.get_state_filename. simpl. eauto. Qed.

(** [save_state] on a running session: the core is backed up, the slot
    gets the captured state, and then the file is written, or the
    failure to write it is reported. *)
Lemma save_state_session g th e slot now :
  NESendoGUI.session g = Some (th, e) →
  ∃ path d,
    NESendoGUI.get_state_filename (Some slot) None g = Some path ∧
    NESendoGUI.serializable_state
      (NESendoGUI.state_data_of (NESendoGUI.rom_path g) (NESEnv._backup e) now)
      = Ok d ∧
    NESendoGUI.save_state slot now g =
      let state_data :=
        NESendoGUI.state_data_of (NESendoGUI.rom_path g) (NESEnv._backup e) now in
      let slots := <[slot := state_data]> (NESendoGUI.state_slots g) in
      let g1 :=
        NESendoGUI.with_state_slots slots
          (NESendoGUI.with_emulation_thread
             (Some (EmulationThread.with_env (Some (NESEnv._backup e)) th)) g) in
      if bool_decide (path ∈ NESendoGUI.unwritable g)
      then (Ok tt,
            NESendoGUI.with_ui
              (MsgCritical "Save Error" (OSError path) :: NESendoGUI.ui g)
              (if bool_decide (path ∈ NESendoGUI.truncating g)
               then NESendoGUI.with_files
                      (<[path := Truncated]> (NESendoGUI.files g)) g1
               else g1))
      else (Ok tt,
            NESendoGUI.with_ui
              (StateStatus (merge_sort Z.le (elements (dom slots)))
                 :: StatusMessage "State saved to slot" :: NESendoGUI.ui g)
              (NESendoGUI.with_files
                 (<[path := Pickled d]> (NESendoGUI.files g)) g1)).
Proof.
  intros (Hth & Hrun & Henv)%session_inv.
  destruct (get_state_filename_slot g slot) as [path Hpath].
  eexists path, _. split; [done|]. split; [apply serializable_state_of_capture|].
  destruct g as [rom oth act keys ae ao ad slots dir fs uw tr ui];
    destruct th as [trom oe run paused ff ffs tact fps fd isr lat];
    simpl in Hth, Hrun, Henv; subst.
  unfold NESendoGUI.save_state. run.
  rewrite serializable_state_of_capture.
  unfold NESendoGUI.get_state_filename in Hpath |- *. simpl in Hpath |- *.
  injection Hpath as <-.
  destruct (bool_decide (_ ∈ uw)); [|done].
  by destruct (bool_decide (_ ∈ tr)).
Qed.

(** [load_state] on a running session: a slot with an entry restores
    the native backup, a slot without one only warns. *)
Lemma load_state_session g th e slot :
  NESendoGUI.session g = Some (th, e) →
  NESendoGUI.load_state slot g =
    match NESendoGUI.state_slots g !! slot with
    | Some _ =>
        (Ok tt,
         NESendoGUI.with_ui
           (StatusMessage "State loaded from slot" :: NESendoGUI.ui g)
           (NESendoGUI.with_emulation_thread
              (Some (EmulationThread.with_env (Some (NESEnv._restore e)) th)) g))
    | None =>
        (Ok tt,
         NESendoGUI.with_ui
           (MsgWarning "Limited Functionality" :: NESendoGUI.ui g) g)
    end.
Proof.
  intros (Hth & Hrun & Henv)%session_inv.
  destruct g as [rom oth act keys ae ao ad slots dir fs uw tr ui];
    destruct th as [trom oe run paused ff ffs tact fps fd isr lat];
    simpl in Hth, Hrun, Henv; subst.
  unfold NESendoGUI.load_state. run.
  by destruct (slots !! slot).
Qed.

Lemma session_intro g th e :
  NESendoGUI.emulation_thread g = Some th →
  EmulationThread.isRunning th = true →
  EmulationThread.env th = Some e →
  NESendoGUI.session g = Some (th, e).
Proof.
  intros Hth Hrun Henv. unfold NESendoGUI.session.
  rewrite Hth. simpl. rewrite Hrun, Henv. done.
Qed.

Lemma the_env_session g th e :
  NESendoGUI.session g = Some (th, e) → NESendoGUI.the_env g = Some e.
Proof.
  intros (Hth & _ & Henv)%session_inv. unfold NESendoGUI.the_env.
  rewrite Hth. done.
Qed.

(** The session and the store after [save_state], whether or not the
    file could be written. *)
Lemma save_state_effect g th e slot now :
  NESendoGUI.session g = Some (th, e) →
  (NESendoGUI.save_state slot now g).1 = Ok tt ∧
  NESendoGUI.session (NESendoGUI.save_state slot now g).2
    = Some (EmulationThread.with_env (Some (NESEnv._backup e)) th, NESEnv._backup e) ∧
  NESendoGUI.state_slots (NESendoGUI.save_state slot now g).2
    = <[slot := NESendoGUI.state_data_of (NESendoGUI.rom_path g) e now]>
        (NESendoGUI.state_slots g) ∧
  NESendoGUI.rom_path (NESendoGUI.save_state slot now g).2 = NESendoGUI.rom_path g.
Proof.
  intros Hs. destruct (save_state_session g th e slot now Hs)
    as (path & d & _ & _ & ->).
  apply session_inv in Hs as (Hth & Hrun & Henv).
  destruct g as [rom oth act keys ae ao ad slots dir fs uw tr ui];
    destruct th as [trom oe run paused ff ffs tact fps fd isr lat];
    simpl in Hth, Hrun, Henv; subst.
  cbv zeta. cbn [NESendoGUI.unwritable NESendoGUI.truncating].
  destruct (bool_decide (path ∈ uw)); [destruct (bool_decide (path ∈ tr))|]; done.
Qed.

(** The session after [load_state] of a slot that has an entry. *)
Lemma load_state_effect g th e slot :
  NESendoGUI.session g = Some (th, e) →
  is_Some (NESendoGUI.state_slots g !! slot) →
  (NESendoGUI.load_state slot g).1 = Ok tt ∧
  NESendoGUI.session (NESendoGUI.load_state slot g).2
    = Some (EmulationThread.with_env (Some (NESEnv._restore e)) th, NESEnv._restore e) ∧
  NESendoGUI.state_slots (NESendoGUI.load_state slot g).2 = NESendoGUI.state_slots g ∧
  NESendoGUI.ui (NESendoGUI.load_state slot g).2
    = StatusMessage "State loaded from slot" :: NESendoGUI.ui g.
Proof.
  intros Hs [sd Hsd]. rewrite (load_state_session g th e slot Hs), Hsd.
  apply session_inv in Hs as (Hth & Hrun & Henv).
  destruct g as [rom oth act keys ae ao ad slots dir fs uw tr ui];
    destruct th as [trom oe run paused ff ffs tact fps fd isr lat];
    simpl in Hth, Hrun, Henv; subst. done.
Qed.

(** The session after the core ran on. *)
Lemma core_runs_effect g th e c d :
  NESendoGUI.session g = Some (th, e) →
  NESendoGUI.session (NESendoGUI.core_runs c d g)
    = Some (EmulationThread.with_env (Some (NESEnv.advance c d e)) th,
            NESEnv.advance c d e) ∧
  NESendoGUI.state_slots (NESendoGUI.core_runs c d g) = NESendoGUI.state_slots g ∧
  NESendoGUI.rom_path (NESendoGUI.core_runs c d g) = NESendoGUI.rom_path g.
Proof.
  intros (Hth & Hrun & Henv)%session_inv.
  destruct g as [rom oth act keys ae ao ad slots dir fs uw tr ui];
    destruct th as [trom oe run paused ff ffs tact fps fd isr lat];
    simpl in Hth, Hrun, Henv; subst. done.
Qed.
End store.




(** ** The ROM check of the load dialog *)

Section rom_check.
Implicit Types (g : NESendoGUI.t) (th : EmulationThread.t) (e : NESEnv.t).
Implicit Types (path recorded : string) (d : gmap string pyval).

(** Reading a pickled dictionary never fails: at most a warning about
    the RAM and one about the controllers are printed; the ROM of the
    record is that of the file. *)
Lemma load_state_from_file_pickled g path d :
  NESendoGUI.files g !! path = Some (Pickled d) →
  ∃ loaded prints,
    NESendoGUI.load_state_from_file path g
      = (Ok loaded, NESendoGUI.with_ui (prints ++ NESendoGUI.ui g) g) ∧
    loaded !! "rom_path" = Some (get d "rom_path").
Proof.
  intros Hfile.
  destruct g as [grom oth act keys ae ao ad slots dir fs uw tr ui]; simpl in Hfile.
  unfold NESendoGUI.load_state_from_file. run. rewrite Hfile.
  destruct (is_None (get d "ram")), (is_None (get d "controllers"));
    try destruct (NESendoGUI.load_ram d);
    try destruct (NESendoGUI.load_controllers d);
    first [ eexists _, []; split; [reflexivity | by simplify_map_eq]
          | eexists _, [_]; split; [reflexivity | by simplify_map_eq]
          | eexists _, [_; _]; split; [reflexivity | by simplify_map_eq] ].
Qed.

(** Reading an empty file fails. *)
Lemma load_state_from_file_truncated g path :
  NESendoGUI.files g !! path = Some Truncated →
  NESendoGUI.load_state_from_file path g
    = (Raise EOFError,
       NESendoGUI.with_ui
         (Printed "Error loading state file" :: NESendoGUI.ui g) g).
Proof.
  intros Hfile.
  destruct g as [grom oth act keys ae ao ad slots dir fs uw tr ui]; simpl in Hfile.
  unfold NESendoGUI.load_state_from_file. run. by rewrite Hfile.
Qed.

Lemma ne_rom_path_str recorded (rom : option string) :
  rom ≠ Some recorded → ne_rom_path (VStr recorded) rom = true.
Proof.
  intros Hne. destruct rom as [s|]; simpl; [|done].
  apply negb_true_iff, String.eqb_neq. congruence.
Qed.

Lemma ne_rom_path_same (rom : option string) :
  ne_rom_path (pyval_of_rom_path rom) rom = false.
Proof.
  destruct rom as [s|]; simpl; [|done].
  apply negb_false_iff, String.eqb_refl.
Qed.

(** The load dialog on a file of the current ROM: nothing is asked, the
    record goes to slot 0, and the core backup is restored. *)
Lemma load_dialog_same_rom g th e path d (reply : button) :
  NESendoGUI.session g = Some (th, e) →
  path ≠ ""%string →
  NESendoGUI.files g !! path = Some (Pickled d) →
  get d "rom_path" = pyval_of_rom_path (NESendoGUI.rom_path g) →
  ∃ loaded prints,
    NESendoGUI.load_state_from_file_dialog path reply g
      = (Ok tt,
         NESendoGUI.with_ui
           (StatusMessage "State loaded from file" :: prints ++ NESendoGUI.ui g)
           (NESendoGUI.with_emulation_thread
              (Some (EmulationThread.with_env (Some (NESEnv._restore e)) th))
              (NESendoGUI.with_state_slots
                 (<[0 := loaded]> (NESendoGUI.state_slots g)) g))).
Proof.
  intros Hs Hpath Hfile Hrom.
  destruct (load_state_from_file_pickled g path d Hfile)
    as (loaded & prints & Hload & Hloaded).
  exists loaded, prints.
  apply session_inv in Hs as (Hth & Hrun & Henv).
  apply String.eqb_neq in Hpath.
  assert (get loaded "rom_path" = pyval_of_rom_path (NESendoGUI.rom_path g)) as Hget.
  { rewrite <- Hrom. unfold get, get_default. by rewrite Hloaded. }
  destruct g as [grom oth act keys ae ao ad slots dir fs uw tr ui];
    destruct th as [trom oe run paused ff ffs tact fps fd isr lat];
    simpl in Hth, Hrun, Henv, Hget; subst.
  unfold NESendoGUI.load_state_from_file_dialog, NESendoGUI.confirm_rom.
  run. rewrite Hpath, Hload. run. rewrite Hget, ne_rom_path_same. done.
Qed.
End rom_check.

(** C3. The core keeps one native backup for all slots: each save,
    to whatever slot, overwrites it with the live state of that moment,
    and each load of a slot with an entry restores it.  So after a save
    to one slot, a save to another once the core has run on, and more
    running, loading the first slot gives the state of the second save
    (and not the state of the first save when the two differ), while
    the entry of the first slot still records the first state; and
    loading a file of the same ROM through the dialog restores that
    same backup. *)
Theorem loading_a_slot_restores_the_latest_backup
    (g : NESendoGUI.t) (th : EmulationThread.t) (e : NESEnv.t)
    (slot1 slot2 : Z) (now1 now2 : float)
    (c1 c2 : NESEnv.core) (d1 d2 : bool) :
  NESendoGUI.session g = Some (th, e) →
  let g1 := (NESendoGUI.save_state slot1 now1 g).2 in
  let g2 := (NESendoGUI.save_state slot2 now2 (NESendoGUI.core_runs c1 d1 g1)).2 in
  let g3 := (NESendoGUI.load_state slot1 (NESendoGUI.core_runs c2 d2 g2)).2 in
  (∃ e1, NESendoGUI.the_env g1 = Some e1 ∧
         NESEnv.backup e1 = Some (NESEnv.live e)) ∧
  (∃ e2, NESendoGUI.the_env g2 = Some e2 ∧ NESEnv.backup e2 = Some c1) ∧
  (∃ e3, NESendoGUI.the_env g3 = Some e3 ∧ NESEnv.live e3 = c1 ∧
         (c1 ≠ NESEnv.live e → NESEnv.live e3 ≠ NESEnv.live e)) ∧
  (slot1 ≠ slot2 →
   NESendoGUI.state_slots g3 !! slot1
     = Some (NESendoGUI.state_data_of (NESendoGUI.rom_path g) e now1)) ∧
  (∀ (path : string) (d : gmap string pyval) (reply : button),
     path ≠ ""%string →
     NESendoGUI.files (NESendoGUI.core_runs c2 d2 g2) !! path = Some (Pickled d) →
     get d "rom_path" = pyval_of_rom_path (NESendoGUI.rom_path g) →
     ∃ e4, NESendoGUI.the_env
             (NESendoGUI.load_state_from_file_dialog path reply
                (NESendoGUI.core_runs c2 d2 g2)).2 = Some e4 ∧
           NESEnv.live e4 = c1).
Proof.
  intros Hs g1 g2 g3.
  destruct (save_state_effect g th e slot1 now1 Hs) as (_ & Hs1 & Hslots1 & Hrom1).
  fold g1 in Hs1, Hslots1, Hrom1.
  destruct (core_runs_effect g1 _ _ c1 d1 Hs1) as (Hs1' & Hslots1' & Hrom1').
  destruct (save_state_effect _ _ _ slot2 now2 Hs1') as (_ & Hs2 & Hslots2 & Hrom2).
  fold g2 in Hs2, Hslots2, Hrom2.
  destruct (core_runs_effect g2 _ _ c2 d2 Hs2) as (Hs2' & Hslots2' & Hrom2').
  assert (is_Some (NESendoGUI.state_slots (NESendoGUI.core_runs c2 d2 g2) !! slot1))
    as Hin.
  { rewrite Hslots2', Hslots2, Hslots1', Hslots1.
    destruct (decide (slot2 = slot1)) as [->|Hne].
    - rewrite lookup_insert_eq. eauto.
    - rewrite lookup_insert_ne, lookup_insert_eq by done. eauto. }
  destruct (load_state_effect _ _ _ slot1 Hs2' Hin) as (_ & Hs3 & Hslots3 & _).
  fold g3 in Hs3, Hslots3. split_and!.
  - eexists. split; [by apply the_env_session in Hs1|]. done.
  - eexists. split; [by apply the_env_session in Hs2|]. done.
  - eexists. split; [by apply the_env_session in Hs3|]. split; [done|].
    intros Hne. exact Hne.
  - intros Hne. rewrite Hslots3, Hslots2', Hslots2, Hslots1', Hslots1.
    by rewrite lookup_insert_ne, lookup_insert_eq.
  - intros path d reply Hpath Hfile Hrom.
    rewrite <- Hrom1, <- Hrom1', <- Hrom2, <- Hrom2' in Hrom.
    destruct (load_dialog_same_rom _ _ _ path d reply Hs2' Hpath Hfile Hrom)
      as (loaded & prints & ->).
    eexists. split.
    + generalize (NESendoGUI.core_runs c2 d2 g2). intros []. reflexivity.
    + reflexivity.
Qed.

(** On the example session: slot 1 saved at [core0], slot 2 at
    [core1]; loading slot 1 later gives [core1]. *)
Lemma loading_a_slot_restores_the_latest_backup_witness :
  NESendoGUI.session Example.gui0 = Some (Example.thread0, Example.env0) ∧
  ∃ e3,
    NESendoGUI.the_env
      (NESendoGUI.load_state 1
         (NESendoGUI.core_runs Example.core2 false
            (NESendoGUI.save_state 2 2%float
               (NESendoGUI.core_runs Example.core1 false
                  (NESendoGUI.save_state 1 1%float Example.gui0).2)).2)).2
      = Some e3 ∧
    NESEnv.live e3 = Example.core1 ∧ NESEnv.live e3 ≠ Example.core0.
Proof.
  split; [reflexivity|].
  destruct (loading_a_slot_restores_the_latest_backup
              Example.gui0 Example.thread0 Example.env0 1 2 1%float 2%float
              Example.core1 Example.core2 false false eq_refl)
    as (_ & _ & (e3 & He3 & Hlive & Hne) & _ & _).
  exists e3. split; [exact He3|]. split; [exact Hlive|].
  apply Hne. discriminate.
Defined.

(** ** Files *)

Section file_store.
Implicit Types (g : NESendoGUI.t) (th : EmulationThread.t) (e : NESEnv.t).
Implicit Types (now : float) (path : string) (rom : option string).

(** Writing a captured state to a path that can be written. *)
Lemma save_state_to_file_capture g rom e now path :
  path ∉ NESendoGUI.unwritable g →
  ∃ d,
    NESendoGUI.serializable_state (NESendoGUI.state_data_of rom e now) = Ok d ∧
    NESendoGUI.save_state_to_file (NESendoGUI.state_data_of rom e now) (Some path) g
      = (Ok tt, NESendoGUI.with_files (<[path := Pickled d]> (NESendoGUI.files g)) g).
Proof.
  intros Hw. eexists. split; [apply serializable_state_of_capture|].
  destruct g as [grom oth act keys ae ao ad slots dir fs uw tr ui]; simpl in Hw.
  unfold NESendoGUI.save_state_to_file. run.
  rewrite serializable_state_of_capture.
  by rewrite (bool_decide_eq_false_2 _ Hw).
Qed.

(** A list of bytes has a shape: [np.array] makes the array of it. *)
Lemma np_array_bytes (l : list Z) :
  np_array (VList (VInt <$> l)) = Ok (array_of_bytes l).
Proof.
  unfold np_array, array_of_bytes.
  assert (shape (VList (VInt <$> l)) = Some [length l]) as ->; [|done].
  destruct l as [|z l]; [done|]. cbn [fmap list_fmap shape].
  assert (forallb (λ y, bool_decide (shape y = Some [])) (VInt <$> l) = true)
    as ->.
  { induction l as [|z' l IH]; [done|]. simpl. exact IH. }
  simpl. by rewrite length_fmap.
Qed.

(** Reading back the file of a captured state: the ROM, the RAM, the
    controllers, the flag and the time stamp are those captured; there
    is no screen. *)
Lemma load_state_from_file_capture g rom e now path d :
  NESendoGUI.serializable_state (NESendoGUI.state_data_of rom e now) = Ok d →
  NESendoGUI.files g !! path = Some (Pickled d) →
  ∃ loaded,
    NESendoGUI.load_state_from_file path g = (Ok loaded, g) ∧
    loaded !! "rom_path" = Some (pyval_of_rom_path rom) ∧
    loaded !! "ram" = Some (array_of_bytes (NESEnv.ram (NESEnv.live e))) ∧
    loaded !! "controllers"
      = Some (VList [array_of_bytes (NESEnv.controllers (NESEnv.live e)).1;
                     array_of_bytes (NESEnv.controllers (NESEnv.live e)).2]) ∧
    loaded !! "done" = Some (NESEnv.done e) ∧
    loaded !! "timestamp" = Some (VFloat now) ∧
    loaded !! "screen" = None.
Proof.
  rewrite serializable_state_of_capture. intros [= <-] Hfile.
  destruct g as [grom oth act keys ae ao ad slots dir fs uw tr ui]; simpl in Hfile.
  unfold NESendoGUI.load_state_from_file. run. rewrite Hfile.
  unfold get, get_default, NESendoGUI.load_controllers, NESendoGUI.load_ram,
    subscript.
  simplify_map_eq. cbn [mbind result_bind item lookup list_lookup].
  rewrite !np_array_bytes. eexists. split; [reflexivity|].
  by simplify_map_eq.
Qed.

(** [restore_emulator_state_from_data] on a session: the [done] of the
    record, unless it is [None], becomes the [done] of the handle, two
    warnings are printed, and nothing else changes. *)
Lemma restore_from_data_effect g th e (state_data : gmap string pyval) :
  NESendoGUI.emulation_thread g = Some th →
  EmulationThread.env th = Some e →
  NESendoGUI.restore_emulator_state_from_data state_data g =
    (Ok tt,
     NESendoGUI.with_ui
       (Printed "For full state restoration, use in-memory savestates (save and load in same session)."
          :: Printed "Warning: File-based savestate loading only restores basic state."
          :: NESendoGUI.ui g)
       (NESendoGUI.with_emulation_thread
          (Some (EmulationThread.with_env
                   (Some (if is_None (get state_data "done") then e
                          else NESEnv.set_done (get state_data "done") e)) th)) g)).
Proof.
  intros Hth Henv.
  destruct g as [grom oth act keys ae ao ad slots dir fs uw tr ui];
    destruct th as [trom oe run paused ff ffs tact fps fd isr lat];
    simpl in Hth, Henv; subst.
  unfold NESendoGUI.restore_emulator_state_from_data. run.
  unfold get, get_default, subscript.
  destruct (state_data !! "done") as [[]|]; done.
Qed.
End file_store.

(** The state of slot 1 exists as a file only, and the core has run on
    since: the file holds the RAM of the save, and after the record read
    from it is applied the session has the flag of the save but the RAM
    of now; and loading slot 1 applies nothing. *)
Lemma file_restore_leaves_the_ram :
  let g := Example.gui_file_only in
  let g' := (NESendoGUI.restore_emulator_state_from_data Example.loaded_state g).2 in
  NESendoGUI.state_slots g !! 1 = None ∧
  (NESendoGUI.load_state_from_file Example.slot1_file g).1 = Ok Example.loaded_state ∧
  Example.loaded_state !! "ram" = Some (array_of_bytes [7; 8]) ∧
  Example.loaded_state !! "done" = Some (VBool false) ∧
  NESEnv.done <$> NESendoGUI.the_env g = Some (VBool true) ∧
  NESEnv.done <$> NESendoGUI.the_env g' = Some (VBool false) ∧
  (NESEnv.ram ∘ NESEnv.live) <$> NESendoGUI.the_env g' = Some [9; 9] ∧
  ((array_of_bytes ∘ NESEnv.ram ∘ NESEnv.live) <$> NESendoGUI.the_env g')
    ≠ Example.loaded_state !! "ram" ∧
  NESendoGUI.the_env (NESendoGUI.load_state 1 g).2 = NESendoGUI.the_env g.
Proof.
  cbv zeta. split_and!; try (vm_compute; reflexivity).
  vm_compute. discriminate.
Qed.

(** C1. A state written with [save_state_to_file] and read back with
    [load_state_from_file] gives the recorded ROM, RAM image, controller
    states, terminal flag and time stamp exactly (and no screen).
    Applying the record to a session with
    [restore_emulator_state_from_data] sets the terminal flag of the
    session to the recorded one (when it is not [None]) and leaves the
    live core: RAM image, controllers, screen, registers, and the native
    backup as they are.  Loading a slot that has no entry in memory
    warns and changes nothing else. *)
Theorem file_restore_applies_only_the_terminal_flag
    (g : NESendoGUI.t) (rom : option string) (e : NESEnv.t)
    (now : float) (path : string) :
  path ∉ NESendoGUI.unwritable g →
  let state_data := NESendoGUI.state_data_of rom e now in
  let g1 := (NESendoGUI.save_state_to_file state_data (Some path) g).2 in
  (NESendoGUI.save_state_to_file state_data (Some path) g).1 = Ok tt ∧
  (∃ loaded,
     NESendoGUI.load_state_from_file path g1 = (Ok loaded, g1) ∧
     Forall (λ key, loaded !! key = state_data !! key)
       ["rom_path"; "ram"; "controllers"; "done"; "timestamp"]%string ∧
     loaded !! "screen" = None ∧
     ∀ g2 th2 e2,
       NESendoGUI.emulation_thread g2 = Some th2 →
       EmulationThread.env th2 = Some e2 →
       (NESendoGUI.restore_emulator_state_from_data loaded g2).1 = Ok tt ∧
       ∃ e3,
         NESendoGUI.the_env
           (NESendoGUI.restore_emulator_state_from_data loaded g2).2 = Some e3 ∧
         NESEnv.done e3
           = (if is_None (NESEnv.done e) then NESEnv.done e2 else NESEnv.done e) ∧
         NESEnv.live e3 = NESEnv.live e2 ∧
         NESEnv.backup e3 = NESEnv.backup e2) ∧
  (∀ g2 th2 e2 slot,
     NESendoGUI.session g2 = Some (th2, e2) →
     NESendoGUI.state_slots g2 !! slot = None →
     NESendoGUI.load_state slot g2
       = (Ok tt,
          NESendoGUI.with_ui
            (MsgWarning "Limited Functionality" :: NESendoGUI.ui g2) g2)).
Proof.
  intros Hw state_data g1.
  destruct (save_state_to_file_capture g rom e now path Hw) as (d & Hd & Hsave).
  subst g1 state_data. rewrite Hsave. simpl. split_and!.
  - done.
  - destruct (load_state_from_file_capture
                (NESendoGUI.with_files (<[path:=Pickled d]> (NESendoGUI.files g)) g)
                rom e now path d Hd)
      as (loaded & Hload & Hrom & Hram & Hctl & Hdone & Htime & Hscreen).
    { destruct g; simpl. apply lookup_insert_eq. }
    exists loaded. split; [done|]. split; [|split; [done|]].
    + unfold NESendoGUI.state_data_of. repeat constructor; by simplify_map_eq.
    + intros g2 th2 e2 Hth Henv.
      rewrite (restore_from_data_effect g2 th2 e2 loaded Hth Henv).
      unfold get, get_default. rewrite Hdone. split; [done|].
      destruct g2 as [grom oth act keys ae ao ad slots dir fs uw tr ui];
        simpl in Hth; subst.
      eexists. split; [reflexivity|]. by destruct (is_None (NESEnv.done e)).
  - intros g2 th2 e2 slot Hs Hnone.
    by rewrite (load_state_session g2 th2 e2 slot Hs), Hnone.
Qed.

(** On the example session. *)
Lemma file_restore_applies_only_the_terminal_flag_witness :
  (Example.slot1_file ∉ NESendoGUI.unwritable Example.gui0) ∧
  (NESendoGUI.save_state_to_file
     (NESendoGUI.state_data_of (Some "/roms/mario.nes"%string) Example.env0 1%float)
     (Some Example.slot1_file) Example.gui0).1 = Ok tt.
Proof.
  assert (Example.slot1_file ∉ NESendoGUI.unwritable Example.gui0) as Hw.
  { vm_compute. discriminate. }
  split; [exact Hw|].
  exact (proj1 (file_restore_applies_only_the_terminal_flag
                  Example.gui0 (Some "/roms/mario.nes"%string) Example.env0
                  1%float Example.slot1_file Hw)).
Defined.


(** C10. Loading, in a running session, a state file whose recorded ROM
    is not the ROM of the session is not refused: the window asks "ROM
    Mismatch", with Yes and No to pick from and No as the default; on No
    nothing of the state is applied (no slot, no restore); only on Yes
    the record goes to slot 0 and the core backup is restored. *)
Theorem rom_mismatch_asks_before_loading
    (g : NESendoGUI.t) (th : EmulationThread.t) (e : NESEnv.t)
    (file_path recorded : string) (d : gmap string pyval) :
  NESendoGUI.session g = Some (th, e) →
  file_path ≠ ""%string →
  NESendoGUI.files g !! file_path = Some (Pickled d) →
  d !! "rom_path" = Some (VStr recorded) →
  NESendoGUI.rom_path g ≠ Some recorded →
  ∃ loaded prints,
    NESendoGUI.load_state_from_file file_path g
      = (Ok loaded, NESendoGUI.with_ui (prints ++ NESendoGUI.ui g) g) ∧
    let asked :=
      MsgQuestion "ROM Mismatch" [Yes; No] No :: prints ++ NESendoGUI.ui g in
    NESendoGUI.load_state_from_file_dialog file_path No g
      = (Ok tt, NESendoGUI.with_ui asked g) ∧
    NESendoGUI.load_state_from_file_dialog file_path Yes g
      = (Ok tt,
         NESendoGUI.with_ui (StatusMessage "State loaded from file" :: asked)
           (NESendoGUI.with_emulation_thread
              (Some (EmulationThread.with_env (Some (NESEnv._restore e)) th))
              (NESendoGUI.with_state_slots
                 (<[0 := loaded]> (NESendoGUI.state_slots g)) g))).
Proof.
  intros Hs Hpath Hfile Hrom Hne.
  destruct (load_state_from_file_pickled g file_path d Hfile)
    as (loaded & prints & Hload & Hloaded).
  exists loaded, prints. split; [done|].
  apply session_inv in Hs as (Hth & Hrun & Henv).
  apply String.eqb_neq in Hpath.
  assert (get loaded "rom_path" = VStr recorded) as Hget.
  { unfold get, get_default in *. by rewrite Hloaded, Hrom. }
  destruct g as [grom oth act keys ae ao ad slots dir fs uw tr ui];
    destruct th as [trom oe run paused ff ffs tact fps fd isr lat];
    simpl in Hth, Hrun, Henv, Hne; subst.
  pose proof (ne_rom_path_str recorded grom Hne) as Hask.
  unfold NESendoGUI.load_state_from_file_dialog, NESendoGUI.confirm_rom.
  assert (get_default loaded "rom_path" (VStr "Unknown") = VStr recorded) as Hname.
  { unfold get, get_default in *. by rewrite Hloaded, Hrom. }
  split; run; rewrite Hpath, Hload; run; rewrite Hget, Hask, Hname; done.
Qed.

(** On the example session: the file of slot 1 was saved under another
    ROM; answering No leaves all but the trace as it is. *)
Lemma rom_mismatch_asks_before_loading_witness :
  ∃ asked,
    NESendoGUI.load_state_from_file_dialog Example.slot1_file No Example.gui_other_rom
      = (Ok tt, NESendoGUI.with_ui asked Example.gui_other_rom).
Proof.
  destruct (rom_mismatch_asks_before_loading
              Example.gui_other_rom
              (EmulationThread.with_env (Some (NESEnv._backup Example.env0))
                 Example.thread0)
              (NESEnv._backup Example.env0)
              Example.slot1_file "/roms/mario.nes"%string Example.slot1_pickle)
    as (loaded & prints & _ & HNo & _).
  - vm_compute. reflexivity.
  - discriminate.
  - vm_compute. reflexivity.
  - vm_compute. reflexivity.
  - vm_compute. discriminate.
  - eexists. exact HNo.
Defined.

(** ** Starting and stopping *)

(** A ROM path that names no file: [start_emulation] does not look
    at the file; it creates and starts the thread and reports
    "Emulation started". *)
Lemma start_with_a_path_that_names_no_rom :
  let g := Example.gui_missing_rom in
  NESendoGUI.rom_path g = Some "/roms/missing.nes"%string ∧
  NESendoGUI.files g !! "/roms/missing.nes"%string = None ∧
  NESendoGUI.emulation_thread g = None ∧
  (NESendoGUI.start_emulation (Some 5%nat) g).1 = Ok tt ∧
  NESendoGUI.emulation_thread (NESendoGUI.start_emulation (Some 5%nat) g).2
    = Some (EmulationThread.start (Some 5%nat)
              (EmulationThread.init "/roms/missing.nes")) ∧
  NESendoGUI.is_emulation_running (NESendoGUI.start_emulation (Some 5%nat) g).2
    = true ∧
  NESendoGUI.ui (NESendoGUI.start_emulation (Some 5%nat) g).2
    = StatusMessage "Emulation started" :: NESendoGUI.ui g.
Proof. cbv zeta. split_and!; by vm_compute. Qed.

(** C5. With no ROM path set ([rom_path] is [None] or empty),
    [start_emulation] shows the "No ROM" warning and returns at once,
    in the normal way: it raises nothing, waits for nothing, tries
    nothing again, and the window has the thread it had before, so no
    session is created.  That is all it checks of the ROM: with any
    path that is not empty (a valid ROM or not) and no emulation
    running, it creates and starts an emulation thread on the path and
    reports "Emulation started". *)
Theorem start_checks_only_that_a_rom_path_is_set
    (g : NESendoGUI.t) (latency : option nat) :
  (NESendoGUI.rom_path g = None ∨ NESendoGUI.rom_path g = Some ""%string →
   NESendoGUI.start_emulation latency g
     = (Ok tt, NESendoGUI.with_ui (MsgWarning "No ROM" :: NESendoGUI.ui g) g) ∧
   NESendoGUI.emulation_thread (NESendoGUI.start_emulation latency g).2
     = NESendoGUI.emulation_thread g ∧
   NESendoGUI.session (NESendoGUI.start_emulation latency g).2
     = NESendoGUI.session g) ∧
  (∀ rom : string,
     NESendoGUI.rom_path g = Some rom → rom ≠ ""%string →
     NESendoGUI.is_emulation_running g = false →
     NESendoGUI.start_emulation latency g
       = (Ok tt,
          NESendoGUI.with_ui
            (StatusMessage "Emulation started" :: NESendoGUI.ui g)
            (NESendoGUI.with_emulation_thread
               (Some (EmulationThread.start latency (EmulationThread.init rom)))
               g))).
Proof.
  split.
  - intros Hrom.
    assert (NESendoGUI.start_emulation latency g
            = (Ok tt, NESendoGUI.with_ui (MsgWarning "No ROM" :: NESendoGUI.ui g) g))
      as ->.
    { destruct g as [grom oth act keys ae ao ad slots dir fs uw tr ui].
      simpl in Hrom. unfold NESendoGUI.start_emulation. run.
      by destruct Hrom as [-> | ->]. }
    by destruct g.
  - intros rom Hrom Hne%String.eqb_neq Hrun.
    destruct g as [grom [[trom oe rn paused ff ffs tact fps fd isr lat]|]
                     act keys ae ao ad slots dir fs uw tr ui];
      simpl in Hrom; cbv in Hrun; subst;
      unfold NESendoGUI.start_emulation; run; by rewrite Hne.
Qed.

(** [stop] on a thread whose loop does not return: the wait has no
    deadline and does not come back. *)
Lemma stop_blocks_on_a_stuck_thread (th : EmulationThread.t) :
  EmulationThread.isRunning th = true →
  EmulationThread.exit_latency th = None →
  EmulationThread.stop th = (Blocks, EmulationThread.with_running false th).
Proof.
  destruct th as [trom oe run paused ff ffs tact fps fd isr lat]; simpl.
  intros -> ->. reflexivity.
Qed.

(** [stop] on a thread whose loop does return: the thread has finished
    and closed its core when [stop] comes back. *)
Lemma stop_returns_on_a_live_thread (th : EmulationThread.t) (ms : nat) :
  EmulationThread.exit_latency th = Some ms →
  (EmulationThread.stop th).1 = Ok tt ∧
  EmulationThread.isRunning (EmulationThread.stop th).2 = false.
Proof.
  destruct th as [trom oe run paused ff ffs tact fps fd [] lat]; simpl;
    intros ->; done.
Qed.

(** C6. On a session whose thread is stuck in a core step,
    [EmulationThread.stop] clears [running] and then waits without a
    deadline, so it does not return, and neither does [stop_emulation],
    which never gets to its own wait of 2000 ms nor to dropping the
    thread; that bounded wait alone would have come back, unanswered. *)
Theorem stop_emulation_blocks_on_a_stuck_thread :
  EmulationThread.stop Example.stuck_thread
    = (Blocks, EmulationThread.with_running false Example.stuck_thread) ∧
  (NESendoGUI.stop_emulation Example.gui_stuck).1 = Blocks ∧
  NESendoGUI.emulation_thread (NESendoGUI.stop_emulation Example.gui_stuck).2
    = Some (EmulationThread.with_running false Example.stuck_thread) ∧
  (EmulationThread.wait (Some 2000%nat)
     (EmulationThread.with_running false Example.stuck_thread)).1 = Ok false ∧
  (NESendoGUI.stop_emulation Example.gui0).1 = Ok tt.
Proof. split_and!; reflexivity. Qed.

(* ===================================================================== *)
(** * Further properties *)
(* ===================================================================== *)

#[local] Set Warnings "-clear-no-such-hyp".

(** ** Key events *)

Section key_events.
Implicit Types (pressed : gset Z) (i key bit : Z) (g : NESendoGUI.t).

(** The rows of the mapping table. *)
Lemma key_mapping_rows key bit :
  key_mapping !! key = Some bit →
  (key, bit) ∈ [(Qt.Key_W, 16); (Qt.Key_A, 64); (Qt.Key_S, 32); (Qt.Key_D, 128);
                (Qt.Key_O, 2); (Qt.Key_P, 1); (Qt.Key_Return, 8); (Qt.Key_Space, 4)].
Proof.
  intros H. apply elem_of_map_to_list in H. revert H.
  assert (map_to_list key_mapping
          ≡ₚ [(Qt.Key_W, 16); (Qt.Key_A, 64); (Qt.Key_S, 32); (Qt.Key_D, 128);
              (Qt.Key_O, 2); (Qt.Key_P, 1); (Qt.Key_Return, 8); (Qt.Key_Space, 4)])
    as ->; [|done].
  vm_compute. by eapply (bool_decide_unpack _).
Qed.

Lemma key_mapping_bit_range key bit :
  key_mapping !! key = Some bit → 0 ≤ bit < 256.
Proof.
  intros H%key_mapping_rows. repeat (apply elem_of_cons in H as [[= -> ->]|H]; [lia|]).
  by apply elem_of_nil in H.
Qed.

(** Two keys of the table have no bit in common. *)
Lemma key_mapping_bits_disjoint key1 bit1 key2 bit2 :
  key_mapping !! key1 = Some bit1 → key_mapping !! key2 = Some bit2 →
  key1 ≠ key2 → Z.land bit1 bit2 = 0.
Proof.
  intros H1%key_mapping_rows H2%key_mapping_rows Hne.
  repeat (apply elem_of_cons in H1 as [[= -> ->]|H1];
          [repeat (apply elem_of_cons in H2 as [[= -> ->]|H2]; [done|]);
           by apply elem_of_nil in H2|]).
  by apply elem_of_nil in H1.
Qed.

Lemma lor_byte a b : 0 ≤ a < 256 → 0 ≤ b < 256 → 0 ≤ Z.lor a b < 256.
Proof.
  intros [Ha0 Ha] [Hb0 Hb]. split; [by apply Z.lor_nonneg|].
  change 256 with (2 ^ 8) in *.
  apply (Z.bounded_iff_bits_nonneg 8); [lia | by apply Z.lor_nonneg |].
  intros m Hm. rewrite Z.lor_spec.
  rewrite (proj1 (Z.bounded_iff_bits_nonneg 8 a ltac:(lia) Ha0) Ha m Hm).
  by rewrite (proj1 (Z.bounded_iff_bits_nonneg 8 b ltac:(lia) Hb0) Hb m Hm).
Qed.

Lemma action_of_keys_insert pressed key bit :
  key_mapping !! key = Some bit →
  action_of_keys ({[key]} ∪ pressed) = Z.lor (action_of_keys pressed) bit.
Proof.
  intros Hkey. apply Z.bits_inj'. intros i _. apply eq_true_iff_eq.
  rewrite Z.lor_spec, orb_true_iff, !action_of_keys_testbit. split.
  - intros (k & b & [Hin|Hin]%elem_of_union & Hk & Hi).
    + apply elem_of_singleton in Hin as ->. right. congruence.
    + left. eauto.
  - intros [(k & b & Hin & Hk & Hi)|Hi].
    + exists k, b. split; [set_solver | done].
    + exists key, bit. split; [set_solver | done].
Qed.

Lemma action_of_keys_remove pressed key bit :
  key_mapping !! key = Some bit →
  action_of_keys (pressed ∖ {[key]}) = Z.land (action_of_keys pressed) (Z.lnot bit).
Proof.
  intros Hkey. apply Z.bits_inj'. intros i Hi0. apply eq_true_iff_eq.
  rewrite Z.land_spec, Z.lnot_spec, andb_true_iff, negb_true_iff by done.
  rewrite !action_of_keys_testbit. split.
  - intros (k & b & [Hin Hne]%elem_of_difference & Hk & Hi).
    split; [eauto|].
    assert (k ≠ key) as Hne' by set_solver.
    pose proof (key_mapping_bits_disjoint k b key bit Hk Hkey Hne') as Hdis.
    apply (f_equal (λ z, Z.testbit z i)) in Hdis.
    rewrite Z.land_spec, Hi, Z.bits_0 in Hdis. done.
  - intros [(k & b & Hin & Hk & Hi) Hbit].
    exists k, b. split; [|done]. apply elem_of_difference. split; [done|].
    intros ->%elem_of_singleton. congruence.
Qed.
End key_events.

(** X1. Whatever keys are held, the action of [update_action] is a
    byte: it lies in [0, 255]. *)
Theorem action_is_a_byte (pressed : gset Z) : 0 ≤ action_of_keys pressed < 256.
Proof.
  unfold action_of_keys, set_fold; simpl.
  induction (elements pressed) as [|key keys IH]; simpl; [lia|].
  unfold or_key. destruct (key_mapping !! key) as [bit|] eqn:Hkey; [|done].
  apply lor_byte; [done|]. by eapply key_mapping_bit_range.
Qed.

(** Runs a method of the window, of the further ones too, on a state
    given by its constructors. *)
Ltac run_all :=
  cbv beta iota zeta delta
    [mbind mret M_bind M_ret gets modify lift pass raise try_except for_each foldr
     NESendoGUI.show NESendoGUI.on_thread NESendoGUI.on_env
     NESendoGUI.the_env NESendoGUI.is_emulation_running NESendoGUI.no_rom
     NESendoGUI.set_slot NESendoGUI.restore_if_env
     NESendoGUI.thread_isRunning NESendoGUI.thread_wait
     NESendoGUI.capture_emulator_state NESendoGUI.update_state_status
     NESendoGUI.save_state_to_file NESendoGUI.pickle_dump NESendoGUI.pickle_load
     NESendoGUI.emulation_thread NESendoGUI.rom_path NESendoGUI.state_slots
     NESendoGUI.files NESendoGUI.unwritable NESendoGUI.truncating NESendoGUI.ui
     NESendoGUI.current_action NESendoGUI.pressed_keys NESendoGUI.audio_enabled
     NESendoGUI.audio_output NESendoGUI.audio_device NESendoGUI.state_directory
     NESendoGUI.with_emulation_thread NESendoGUI.with_state_slots
     NESendoGUI.with_files NESendoGUI.with_ui NESendoGUI.with_audio_device
     NESendoGUI.with_rom_path NESendoGUI.with_current_action
     NESendoGUI.with_pressed_keys NESendoGUI.update_action
     NESendoGUI.keyPressEvent NESendoGUI.keyReleaseEvent
     NESendoGUI.stop_emulation NESendoGUI.start_emulation
     NESendoGUI.clear_states NESendoGUI.save_state NESendoGUI.load_state
     NESendoGUI.save_state_to_file_dialog NESendoGUI.load_state_from_file_dialog
     NESendoGUI.play_audio
     Window.when_running Window.pause_emulation Window.resume_emulation
     Window.toggle_fastforward Window.set_fastforward_speed
     Window.load_existing_state Window.load_existing_states Window.closeEvent
     Window.gui Window.recent_files Window.stored_recent Window.recent_menu
     Window.master_volume Window.output_volume Window.core_volume
     Window.with_gui Window.on_gui Window.set_recent Window.add_to_recent_files
     Window.switch_rom Window.load_rom Window.load_recent_rom Window.mute_audio
     Window.set_audio_volume
     EmulationThread.env EmulationThread.isRunning EmulationThread.with_env
     EmulationThread.rom_path EmulationThread.running EmulationThread.paused
     EmulationThread.fastforward EmulationThread.fastforward_speed
     EmulationThread.current_action EmulationThread.target_fps
     EmulationThread.frame_duration EmulationThread.exit_latency
     EmulationThread.with_running EmulationThread.with_paused
     EmulationThread.with_fastforward EmulationThread.with_fastforward_speed
     EmulationThread.with_current_action EmulationThread.with_qthread
     EmulationThread.set_action EmulationThread.pause EmulationThread.resume
     EmulationThread.toggle_fastforward EmulationThread.set_fastforward_speed
     EmulationThread.is_fastforward EmulationThread.is_paused
     EmulationThread.stop EmulationThread.wait EmulationThread.time_to_exit
     EmulationThread.run_exit EmulationThread.start EmulationThread.init
     option_bind option_ret fst snd negb andb orb compose default].

(** X2. In a running emulation, pressing a key of the table is taken
    as a control: the key joins the held keys, and the action of the
    window and of the thread becomes the old mask of the held keys with
    the bit of the key OR-ed in. *)
Theorem key_press_sets_the_bit_of_the_key (g : NESendoGUI.t) (key bit : Z) :
  NESendoGUI.is_emulation_running g = true →
  key_mapping !! key = Some bit →
  let g' := (NESendoGUI.keyPressEvent key g).2 in
  (NESendoGUI.keyPressEvent key g).1 = Ok true ∧
  NESendoGUI.pressed_keys g' = {[key]} ∪ NESendoGUI.pressed_keys g ∧
  NESendoGUI.current_action g'
    = Z.lor (action_of_keys (NESendoGUI.pressed_keys g)) bit ∧
  EmulationThread.current_action <$> NESendoGUI.emulation_thread g'
    = Some (Z.lor (action_of_keys (NESendoGUI.pressed_keys g)) bit).
Proof.
  intros Hrun Hkey.
  destruct g as [rom [th|] act keys ae ao ad slots dir fs uw tr ui];
    cbv in Hrun; [|done].
  destruct th as [trom oe run paused ff ffs tact fps fd isr lat]; subst.
  run_all. rewrite Hkey, (bool_decide_eq_true_2 (is_Some (Some bit))) by eauto.
  run_all. by rewrite (action_of_keys_insert keys key bit Hkey).
Qed.

(** On the example session: pressing W with nothing held gives Up. *)
Lemma key_press_sets_the_bit_of_the_key_witness :
  NESendoGUI.current_action (NESendoGUI.keyPressEvent Qt.Key_W Example.gui0).2 = 16.
Proof.
  exact (proj1 (proj2 (proj2 (key_press_sets_the_bit_of_the_key
                                Example.gui0 Qt.Key_W 16 eq_refl eq_refl)))).
Defined.

(** X3. In a running emulation, releasing a key of the table clears
    the bit of that key and no other: the key leaves the held keys, and
    the action of the window and of the thread becomes the old mask
    with the bit of the key taken out, whatever else is held. *)
Theorem key_release_clears_the_bit_of_the_key (g : NESendoGUI.t) (key bit : Z) :
  NESendoGUI.is_emulation_running g = true →
  key_mapping !! key = Some bit →
  let g' := (NESendoGUI.keyReleaseEvent key g).2 in
  (NESendoGUI.keyReleaseEvent key g).1 = Ok true ∧
  NESendoGUI.pressed_keys g' = NESendoGUI.pressed_keys g ∖ {[key]} ∧
  NESendoGUI.current_action g'
    = Z.land (action_of_keys (NESendoGUI.pressed_keys g)) (Z.lnot bit) ∧
  EmulationThread.current_action <$> NESendoGUI.emulation_thread g'
    = Some (Z.land (action_of_keys (NESendoGUI.pressed_keys g)) (Z.lnot bit)).
Proof.
  intros Hrun Hkey.
  destruct g as [rom [th|] act keys ae ao ad slots dir fs uw tr ui];
    cbv in Hrun; [|done].
  destruct th as [trom oe run paused ff ffs tact fps fd isr lat]; subst.
  run_all. rewrite Hkey, (bool_decide_eq_true_2 (is_Some (Some bit))) by eauto.
  run_all. by rewrite (action_of_keys_remove keys key bit Hkey).
Qed.

(** On the example session: releasing W gives no action. *)
Lemma key_release_clears_the_bit_of_the_key_witness :
  NESendoGUI.current_action
    (NESendoGUI.keyReleaseEvent Qt.Key_W
       (NESendoGUI.keyPressEvent Qt.Key_W Example.gui0).2).2 = 0.
Proof.
  exact (proj1 (proj2 (proj2 (key_release_clears_the_bit_of_the_key
                                (NESendoGUI.keyPressEvent Qt.Key_W Example.gui0).2
                                Qt.Key_W 16 eq_refl eq_refl)))).
Defined.

(** X4. A key outside the table, or any key while no emulation runs, is
    not taken as a control and changes nothing; and the held keys are
    keys of the table before and after every key event. *)
Theorem key_events_only_take_mapped_keys_of_a_running_emulation
    (g : NESendoGUI.t) (key : Z) :
  (NESendoGUI.is_emulation_running g = false ∨ key_mapping !! key = None →
   NESendoGUI.keyPressEvent key g = (Ok false, g) ∧
   NESendoGUI.keyReleaseEvent key g = (Ok false, g)) ∧
  (NESendoGUI.pressed_keys g ⊆ dom key_mapping →
   NESendoGUI.pressed_keys (NESendoGUI.keyPressEvent key g).2 ⊆ dom key_mapping ∧
   NESendoGUI.pressed_keys (NESendoGUI.keyReleaseEvent key g).2 ⊆ dom key_mapping).
Proof.
  destruct g as [rom oth act keys ae ao ad slots dir fs uw tr ui]. split.
  - intros [Hrun| Hkey].
    + destruct oth as [[trom oe run paused ff ffs tact fps fd isr lat]|];
        cbv in Hrun; subst; done.
    + run_all. rewrite Hkey.
      rewrite (bool_decide_eq_false_2 (is_Some None)) by (by intros [? ?]).
      by destruct oth as [[? ? ? ? ? ? ? ? ? [] ?]|].
  - simpl. intros Hsub.
    destruct (key_mapping !! key) as [bit|] eqn:Hkey.
    + assert (key ∈ dom key_mapping) by (apply elem_of_dom; eauto).
      run_all. rewrite Hkey, (bool_decide_eq_true_2 (is_Some (Some bit))) by eauto.
      destruct oth as [[? ? ? ? ? ? ? ? ? [] ?]|]; simpl; set_solver.
    + run_all. rewrite Hkey.
      rewrite (bool_decide_eq_false_2 (is_Some None)) by (by intros [? ?]).
      by destruct oth as [[? ? ? ? ? ? ? ? ? [] ?]|].
Qed.

(** ** The save-state entry points at their edges *)

(** Takes a session apart: the window and the thread by their fields. *)
Ltac open_session Hs g th :=
  apply session_inv in Hs as (?Hth & ?Hrun & ?Henv);
  destruct g as [?rom ?oth ?act ?keys ?ae ?ao ?ad ?slots ?dir ?fs ?uw ?tr ?ui];
  destruct th as [?trom ?oe ?run ?paused ?ff ?ffs ?tact ?fps ?fd ?isr ?lat];
  simpl in *; subst.

(** X5. While no emulation is running (no thread, or a thread that is
    not running), saving or loading a slot and the two file dialogs,
    whatever path and answer they would be given, only show the
    "No Emulation" warning: no slot, file or core changes. *)
Theorem save_and_load_need_a_running_emulation
    (g : NESendoGUI.t) (slot : Z) (now : float) (path : string) (reply : button) :
  NESendoGUI.is_emulation_running g = false →
  let warned :=
    (Ok tt, NESendoGUI.with_ui (MsgWarning "No Emulation" :: NESendoGUI.ui g) g) in
  NESendoGUI.save_state slot now g = warned ∧
  NESendoGUI.load_state slot g = warned ∧
  NESendoGUI.save_state_to_file_dialog path now g = warned ∧
  NESendoGUI.load_state_from_file_dialog path reply g = warned.
Proof.
  intros Hrun.
  destruct g as [rom [[trom oe run paused ff ffs tact fps fd isr lat]|]
                   act keys ae ao ad slots dir fs uw tr ui];
    cbv in Hrun; subst; done.
Qed.

(** On the window without a session: saving slot 1 only warns. *)
Lemma save_and_load_need_a_running_emulation_witness :
  NESendoGUI.save_state 1 1%float Example.gui_no_rom
    = (Ok tt,
       NESendoGUI.with_ui
         (MsgWarning "No Emulation" :: NESendoGUI.ui Example.gui_no_rom)
         Example.gui_no_rom).
Proof.
  exact (proj1 (save_and_load_need_a_running_emulation
                  Example.gui_no_rom 1 1%float ""%string No eq_refl)).
Defined.

(** X6. While the thread is running but has not created its core yet
    ([env] is [None]), [save_state] fails on the backup and reports
    "Save Error" with nothing changed; [load_state] of a slot that has
    an entry skips the restore and still reports "State loaded from
    slot". *)
Theorem save_and_load_before_the_core_exists
    (g : NESendoGUI.t) (th : EmulationThread.t) (slot : Z) (now : float) :
  NESendoGUI.emulation_thread g = Some th →
  EmulationThread.isRunning th = true →
  EmulationThread.env th = None →
  NESendoGUI.save_state slot now g
    = (Ok tt,
       NESendoGUI.with_ui
         (MsgCritical "Save Error" AttributeError :: NESendoGUI.ui g) g) ∧
  (is_Some (NESendoGUI.state_slots g !! slot) →
   NESendoGUI.load_state slot g
     = (Ok tt,
        NESendoGUI.with_ui
          (StatusMessage "State loaded from slot" :: NESendoGUI.ui g) g)).
Proof.
  intros Hth Hrun Henv.
  destruct g as [rom oth act keys ae ao ad slots dir fs uw tr ui];
    destruct th as [trom oe run paused ff ffs tact fps fd isr lat];
    simpl in *; subst. split; [done|].
  intros [sd Hsd]. run_all. by rewrite Hsd.
Qed.

(** On the example window right after [start_emulation], before the
    thread has created its core. *)
Lemma save_and_load_before_the_core_exists_witness :
  let g := (NESendoGUI.start_emulation (Some 5%nat)
              (NESendoGUI.with_emulation_thread None Example.gui0)).2 in
  NESendoGUI.save_state 1 1%float g
    = (Ok tt,
       NESendoGUI.with_ui
         (MsgCritical "Save Error" AttributeError :: NESendoGUI.ui g) g).
Proof.
  exact (proj1 (save_and_load_before_the_core_exists
                  (NESendoGUI.start_emulation (Some 5%nat)
                     (NESendoGUI.with_emulation_thread None Example.gui0)).2
                  (EmulationThread.start (Some 5%nat)
                     (EmulationThread.init "/roms/mario.nes"))
                  1 1%float eq_refl eq_refl eq_refl)).
Defined.

Section conversions.
Implicit Types (v a : pyval) (d : gmap string pyval).





End conversions.



(** X8. In a running emulation, the load dialog on a path without a
    file, or with a file that is not a pickle, reports "Load Error" and
    applies nothing: no slot, no restore; a cancelled dialog (empty
    path) changes nothing at all. *)
Theorem load_dialog_reports_unreadable_files
    (g : NESendoGUI.t) (path : string) (reply : button) :
  NESendoGUI.is_emulation_running g = true →
  NESendoGUI.load_state_from_file_dialog ""%string reply g = (Ok tt, g) ∧
  (path ≠ ""%string → NESendoGUI.files g !! path = None →
   NESendoGUI.load_state_from_file_dialog path reply g
     = (Ok tt,
        NESendoGUI.with_ui
          (MsgCritical "Load Error" (OSError path)
             :: Printed "Error loading state file" :: NESendoGUI.ui g) g)) ∧
  (path ≠ ""%string → NESendoGUI.files g !! path = Some Corrupt →
   NESendoGUI.load_state_from_file_dialog path reply g
     = (Ok tt,
        NESendoGUI.with_ui
          (MsgCritical "Load Error" UnpicklingError
             :: Printed "Error loading state file" :: NESendoGUI.ui g) g)).
Proof.
  intros Hrun.
  destruct g as [rom [[trom oe run paused ff ffs tact fps fd isr lat]|]
                   act keys ae ao ad slots dir fs uw tr ui];
    cbv in Hrun; subst; [|done].
  split_and!; [done | |];
    intros Hpath%String.eqb_neq Hfile; simpl in Hfile;
    unfold NESendoGUI.load_state_from_file_dialog, NESendoGUI.load_state_from_file;
    run; rewrite Hpath; run; rewrite Hfile; done.
Qed.

(** On the example session: a path that has no file. *)
Lemma load_dialog_reports_unreadable_files_witness :
  NESendoGUI.load_state_from_file_dialog ""%string No Example.gui0
    = (Ok tt, Example.gui0).
Proof.
  exact (proj1 (load_dialog_reports_unreadable_files
                  Example.gui0 "/nowhere.state"%string No eq_refl)).
Defined.

(** X9. A captured state that was written to a file and read back can
    be written again, and the dictionary pickled then is the one of the
    first file: what the file holds is a fixed point of load and save,
    though the record read back has lost the screen. *)
Theorem saving_a_loaded_state_gives_the_same_file
    (g : NESendoGUI.t) (rom : option string) (e : NESEnv.t) (now : float)
    (path : string) (d : gmap string pyval) :
  NESendoGUI.serializable_state (NESendoGUI.state_data_of rom e now) = Ok d →
  NESendoGUI.files g !! path = Some (Pickled d) →
  ∃ loaded,
    NESendoGUI.load_state_from_file path g = (Ok loaded, g) ∧
    NESendoGUI.serializable_state loaded = Ok d ∧
    ∀ g' path',
      path' ∉ NESendoGUI.unwritable g' →
      NESendoGUI.save_state_to_file loaded (Some path') g'
        = (Ok tt,
           NESendoGUI.with_files (<[path' := Pickled d]> (NESendoGUI.files g')) g').
Proof.
  intros Hd Hfile.
  destruct (load_state_from_file_capture g rom e now path d Hd Hfile)
    as (loaded & Hload & Hrom & Hram & Hctl & Hdone & Htime & _).
  assert (NESendoGUI.serializable_state loaded = Ok d) as Hser.
  { rewrite serializable_state_of_capture in Hd. injection Hd as <-.
    unfold NESendoGUI.serializable_state, subscript.
    rewrite Hrom, Hram, Hctl, Hdone, Htime. reflexivity. }
  exists loaded. split_and!; [done | done |].
  intros g' path' Hw.
  destruct g' as [grom oth act keys ae ao ad slots dir fs uw tr ui]; simpl in Hw.
  unfold NESendoGUI.save_state_to_file. run. rewrite Hser.
  by rewrite (bool_decide_eq_false_2 _ Hw).
Qed.

(** On the example window: the file of slot 1 holds the state of
    [env0] captured at time 1. *)
Lemma saving_a_loaded_state_gives_the_same_file_witness :
  ∃ loaded,
    NESendoGUI.load_state_from_file Example.slot1_file Example.gui_other_rom
      = (Ok loaded, Example.gui_other_rom) ∧
    NESendoGUI.serializable_state loaded = Ok Example.slot1_pickle.
Proof.
  destruct (saving_a_loaded_state_gives_the_same_file
              Example.gui_other_rom (Some "/roms/mario.nes"%string)
              Example.env0 1%float Example.slot1_file Example.slot1_pickle)
    as (loaded & Hload & Hser & _).
  - vm_compute. reflexivity.
  - vm_compute. reflexivity.
  - exists loaded. split; [exact Hload | exact Hser].
Defined.

Section save_dialog.
Implicit Types (g : NESendoGUI.t) (th : EmulationThread.t) (e : NESEnv.t).

(** [save_state_to_file_dialog] on a running session and a path. *)
Lemma save_dialog_session g th e path now :
  NESendoGUI.session g = Some (th, e) →
  path ≠ ""%string →
  ∃ d,
    NESendoGUI.serializable_state
      (NESendoGUI.state_data_of (NESendoGUI.rom_path g) e now) = Ok d ∧
    NESendoGUI.save_state_to_file_dialog path now g =
      let g1 :=
        NESendoGUI.with_emulation_thread
          (Some (EmulationThread.with_env (Some (NESEnv._backup e)) th)) g in
      if bool_decide (path ∈ NESendoGUI.unwritable g)
      then (Ok tt,
            NESendoGUI.with_ui
              (MsgCritical "Save Error" (OSError path) :: NESendoGUI.ui g)
              (if bool_decide (path ∈ NESendoGUI.truncating g)
               then NESendoGUI.with_files
                      (<[path := Truncated]> (NESendoGUI.files g)) g1
               else g1))
      else (Ok tt,
            NESendoGUI.with_ui
              (StatusMessage "State saved to file" :: NESendoGUI.ui g)
              (NESendoGUI.with_state_slots
                 (<[0 := NESendoGUI.state_data_of (NESendoGUI.rom_path g) e now]>
                    (NESendoGUI.state_slots g))
                 (NESendoGUI.with_files
                    (<[path := Pickled d]> (NESendoGUI.files g)) g1))).
Proof.
  intros Hs Hpath%String.eqb_neq.
  eexists. split; [apply serializable_state_of_capture|].
  open_session Hs g th.
  unfold NESendoGUI.save_state_to_file_dialog. run. rewrite Hpath. run.
  change (NESendoGUI.state_data_of rom (NESEnv._backup e) now)
    with (NESendoGUI.state_data_of rom e now).
  rewrite serializable_state_of_capture.
  destruct (bool_decide (path ∈ _)); [destruct (bool_decide (path ∈ _))|]; done.
Qed.
End save_dialog.

(** C4. When writing the file of the slot fails, [save_state] reports
    the failure in a "Save Error" box and returns, but the stored
    snapshot of the slot is not left as it was: the entry of the slot,
    written before the file, already holds the new state, the core
    backup is the new one, and when the write fails after
    [open(_, 'wb')] the state file is left empty and no longer loads.
    Only the entries and the files of the other slots are as before.
    The save dialog, which writes its file first, leaves every entry
    alone on the same failure. *)
Theorem failed_save_has_already_replaced_the_snapshot
    (g : NESendoGUI.t) (th : EmulationThread.t) (e : NESEnv.t)
    (slot : Z) (now : float) (path : string) :
  NESendoGUI.session g = Some (th, e) →
  NESendoGUI.get_state_filename (Some slot) None g = Some path →
  path ∈ NESendoGUI.unwritable g →
  let g' := (NESendoGUI.save_state slot now g).2 in
  (NESendoGUI.save_state slot now g).1 = Ok tt ∧
  NESendoGUI.ui g' = MsgCritical "Save Error" (OSError path) :: NESendoGUI.ui g ∧
  NESendoGUI.state_slots g' !! slot
    = Some (NESendoGUI.state_data_of (NESendoGUI.rom_path g) e now) ∧
  (∀ other, other ≠ slot →
            NESendoGUI.state_slots g' !! other = NESendoGUI.state_slots g !! other) ∧
  (∃ e', NESendoGUI.the_env g' = Some e' ∧
         NESEnv.backup e' = Some (NESEnv.live e) ∧ NESEnv.live e' = NESEnv.live e) ∧
  (path ∉ NESendoGUI.truncating g → NESendoGUI.files g' = NESendoGUI.files g) ∧
  (path ∈ NESendoGUI.truncating g →
   NESendoGUI.files g' = <[path := Truncated]> (NESendoGUI.files g) ∧
   (NESendoGUI.load_state_from_file path g').1 = Raise EOFError) ∧
  (∀ other, other ≠ path →
            NESendoGUI.files g' !! other = NESendoGUI.files g !! other) ∧
  (path ≠ ""%string →
   NESendoGUI.state_slots (NESendoGUI.save_state_to_file_dialog path now g).2
     = NESendoGUI.state_slots g).
Proof.
  intros Hs Hpath Hin g'. subst g'.
  assert (path ≠ ""%string →
          NESendoGUI.state_slots
            (NESendoGUI.save_state_to_file_dialog path now g).2
          = NESendoGUI.state_slots g) as Hdialog.
  { intros Hne.
    destruct (save_dialog_session g th e path now Hs Hne) as (d' & _ & ->).
    rewrite (bool_decide_eq_true_2 _ Hin). cbv zeta.
    destruct (bool_decide (path ∈ _)); by destruct g. }
  destruct (save_state_session g th e slot now Hs) as (path' & d & Hpath' & _ & ->).
  rewrite Hpath in Hpath'. injection Hpath' as <-.
  rewrite (bool_decide_eq_true_2 _ Hin). cbv zeta. clear Hpath.
  destruct (bool_decide_reflect (path ∈ NESendoGUI.truncating g)) as [Htr|Htr];
    open_session Hs g th.
  - split_and!; try done.
    + by rewrite lookup_insert_eq.
    + intros other Hne. by rewrite lookup_insert_ne.
    + eexists. split; [reflexivity|]. done.
    + intros _. split; [done|].
      erewrite load_state_from_file_truncated; [done|].
      simpl. by rewrite lookup_insert_eq.
    + intros other Hne. by rewrite lookup_insert_ne.
  - split_and!; try done.
    + by rewrite lookup_insert_eq.
    + intros other Hne. by rewrite lookup_insert_ne.
    + eexists. split; [reflexivity|]. done.
Qed.

(** On the example session on a full disk: the file of slot 1, which
    held the state of the earlier save, is left empty. *)
Lemma failed_save_has_already_replaced_the_snapshot_witness :
  NESendoGUI.files Example.gui_disk_full !! Example.slot1_file
    = Some (Pickled Example.slot1_pickle) ∧
  NESendoGUI.files (NESendoGUI.save_state 1 2%float Example.gui_disk_full).2
    !! Example.slot1_file = Some Truncated ∧
  (NESendoGUI.state_slots Example.gui_disk_full !! 1 ≫= (.!! "ram"))
    = Some (array_of_bytes [7; 8]) ∧
  (NESendoGUI.state_slots (NESendoGUI.save_state 1 2%float Example.gui_disk_full).2
     !! 1 ≫= (.!! "ram")) = Some (array_of_bytes [9; 9]).
Proof.
  destruct (failed_save_has_already_replaced_the_snapshot
              Example.gui_disk_full
              (EmulationThread.with_env
                 (Some (NESEnv.advance Example.core1 false
                          (NESEnv._backup Example.env0)))
                 Example.thread0)
              (NESEnv.advance Example.core1 false (NESEnv._backup Example.env0))
              1 2%float Example.slot1_file)
    as (_ & _ & Hslot & _ & _ & _ & Hfiles & _).
  - vm_compute. reflexivity.
  - vm_compute. reflexivity.
  - vm_compute. set_solver.
  - destruct Hfiles as [Hfiles _]; [vm_compute; set_solver|].
    split_and!.
    + vm_compute. reflexivity.
    + rewrite Hfiles. apply lookup_insert_eq.
    + vm_compute. reflexivity.
    + rewrite Hslot. vm_compute. reflexivity.
Defined.

(** X10. In a running session, a cancelled save dialog changes
    nothing, not even the core backup.  With a path that cannot be
    written, the dialog reports "Save Error" and leaves every slot,
    slot 0 too, as it is, and the files as well when it is [open] that
    fails (when the write fails after [open], the file is left empty);
    but the core backup has already been replaced by the live
    state. *)
Theorem save_dialog_keeps_the_slots_when_the_write_fails
    (g : NESendoGUI.t) (th : EmulationThread.t) (e : NESEnv.t)
    (path : string) (now : float) :
  NESendoGUI.session g = Some (th, e) →
  NESendoGUI.save_state_to_file_dialog ""%string now g = (Ok tt, g) ∧
  (path ≠ ""%string → path ∈ NESendoGUI.unwritable g →
   let g' := (NESendoGUI.save_state_to_file_dialog path now g).2 in
   NESendoGUI.ui g' = MsgCritical "Save Error" (OSError path) :: NESendoGUI.ui g ∧
   NESendoGUI.state_slots g' = NESendoGUI.state_slots g ∧
   (path ∉ NESendoGUI.truncating g → NESendoGUI.files g' = NESendoGUI.files g) ∧
   (path ∈ NESendoGUI.truncating g →
    NESendoGUI.files g' = <[path := Truncated]> (NESendoGUI.files g)) ∧
   NESendoGUI.the_env g' = Some (NESEnv._backup e)).
Proof.
  intros Hs. split.
  - apply session_inv in Hs as (Hth & Hrun & _).
    destruct g as [rom oth act keys ae ao ad slots dir fs uw tr ui];
      destruct th as [trom oe run paused ff ffs tact fps fd isr lat];
      simpl in *; subst. done.
  - intros Hpath Hin.
    destruct (save_dialog_session g th e path now Hs Hpath) as (d & _ & ->).
    rewrite (bool_decide_eq_true_2 _ Hin). cbv zeta.
    destruct (bool_decide_reflect (path ∈ NESendoGUI.truncating g)) as [Htr|Htr];
      open_session Hs g th; done.
Qed.

(** On the example session: the dialog cancelled. *)
Lemma save_dialog_keeps_the_slots_when_the_write_fails_witness :
  NESendoGUI.save_state_to_file_dialog ""%string 1%float Example.gui0
    = (Ok tt, Example.gui0).
Proof.
  exact (proj1 (save_dialog_keeps_the_slots_when_the_write_fails
                  Example.gui0 Example.thread0 Example.env0
                  Example.slot1_file 1%float eq_refl)).
Defined.

(** X11. In a running session, a state saved through the save dialog
    and loaded again from the same file through the load dialog, with
    the core having run on in between, is loaded without a question
    (the ROM is the same): the live core is the one of the save again,
    and slot 0 holds the record read from the file, with the RAM of the
    save. *)
Theorem save_dialog_then_load_dialog_restores_the_core
    (g : NESendoGUI.t) (th : EmulationThread.t) (e : NESEnv.t)
    (path : string) (now : float) (c : NESEnv.core) (d : bool) (reply : button) :
  NESendoGUI.session g = Some (th, e) →
  path ≠ ""%string →
  path ∉ NESendoGUI.unwritable g →
  let g1 := (NESendoGUI.save_state_to_file_dialog path now g).2 in
  let g2 := NESendoGUI.core_runs c d g1 in
  let g3 := (NESendoGUI.load_state_from_file_dialog path reply g2).2 in
  (NESendoGUI.load_state_from_file_dialog path reply g2).1 = Ok tt ∧
  NESendoGUI.ui g3 = StatusMessage "State loaded from file" :: NESendoGUI.ui g2 ∧
  (∃ e3, NESendoGUI.the_env g3 = Some e3 ∧ NESEnv.live e3 = NESEnv.live e) ∧
  (∃ loaded, NESendoGUI.state_slots g3 !! 0 = Some loaded ∧
             loaded !! "ram" = Some (array_of_bytes (NESEnv.ram (NESEnv.live e)))).
Proof.
  intros Hs Hpath Hw g1 g2 g3. subst g3 g2 g1.
  destruct (save_dialog_session g th e path now Hs Hpath) as (dict & Hd & ->).
  rewrite (bool_decide_eq_false_2 _ Hw). cbv zeta.
  open_session Hs g th.
  unfold NESendoGUI.core_runs. run.
  match goal with
  | |- context [NESendoGUI.load_state_from_file_dialog path reply ?x] =>
      set (g2 := x)
  end.
  destruct (load_state_from_file_capture g2 rom e now path dict Hd)
    as (loaded & Hload & Hrom & Hram & _).
  { subst g2. simpl. apply lookup_insert_eq. }
  assert (NESendoGUI.load_state_from_file_dialog path reply g2
          = (Ok tt,
             NESendoGUI.with_ui
               (StatusMessage "State loaded from file" :: NESendoGUI.ui g2)
               (NESendoGUI.with_emulation_thread
                  (Some (EmulationThread.with_env
                           (Some (NESEnv._restore
                                    (NESEnv.advance c d (NESEnv._backup e))))
                           (EmulationThread.Thread trom
                              (Some (NESEnv.advance c d (NESEnv._backup e)))
                              run paused ff ffs tact fps fd true lat)))
                  (NESendoGUI.with_state_slots
                     (<[0 := loaded]> (NESendoGUI.state_slots g2)) g2)))) as ->.
  { apply String.eqb_neq in Hpath.
    unfold NESendoGUI.load_state_from_file_dialog, NESendoGUI.confirm_rom.
    subst g2. run. rewrite Hpath. rewrite Hload. run.
    unfold get, get_default. rewrite Hrom. rewrite ne_rom_path_same. done. }
  subst g2. simpl. split_and!; [done | done | eauto |].
  exists loaded. by rewrite lookup_insert_eq.
Qed.

(** On the example session. *)
Lemma save_dialog_then_load_dialog_restores_the_core_witness :
  ∃ e3,
    NESendoGUI.the_env
      (NESendoGUI.load_state_from_file_dialog "/tmp/mario.state" No
         (NESendoGUI.core_runs Example.core1 false
            (NESendoGUI.save_state_to_file_dialog "/tmp/mario.state" 1%float
               Example.gui0).2)).2 = Some e3 ∧
    NESEnv.live e3 = Example.core0.
Proof.
  destruct (save_dialog_then_load_dialog_restores_the_core
              Example.gui0 Example.thread0 Example.env0
              "/tmp/mario.state"%string 1%float Example.core1 false No)
    as (_ & _ & (e3 & He3 & Hlive) & _).
  - reflexivity.
  - discriminate.
  - vm_compute. discriminate.
  - exists e3. split; [exact He3 | exact Hlive].
Defined.

(** X12. [clear_states] empties the slots and shows that none is left,
    and that is all: the state files stay on disk and the core keeps
    its live state and its native backup.  Loading any slot right after
    only warns "Limited Functionality" and restores nothing. *)
Theorem clear_states_forgets_the_slots_only
    (g : NESendoGUI.t) (th : EmulationThread.t) (e : NESEnv.t) (slot : Z) :
  NESendoGUI.session g = Some (th, e) →
  let g1 := (NESendoGUI.clear_states g).2 in
  NESendoGUI.clear_states g
    = (Ok tt,
       NESendoGUI.with_ui (StateStatus [] :: NESendoGUI.ui g)
         (NESendoGUI.with_state_slots ∅ g)) ∧
  NESendoGUI.files g1 = NESendoGUI.files g ∧
  NESendoGUI.the_env g1 = Some e ∧
  NESendoGUI.load_state slot g1
    = (Ok tt,
       NESendoGUI.with_ui
         (MsgWarning "Limited Functionality" :: NESendoGUI.ui g1) g1).
Proof.
  intros Hs. open_session Hs g th. run_all.
  rewrite dom_empty_L, elements_empty, lookup_empty. done.
Qed.

(** On the example session with slot 1 saved. *)
Lemma clear_states_forgets_the_slots_only_witness :
  NESendoGUI.state_slots
    (NESendoGUI.clear_states (NESendoGUI.save_state 1 1%float Example.gui0).2).2
    = ∅.
Proof.
  pose proof (clear_states_forgets_the_slots_only
                (NESendoGUI.save_state 1 1%float Example.gui0).2
                (EmulationThread.with_env (Some (NESEnv._backup Example.env0))
                   Example.thread0)
                (NESEnv._backup Example.env0) 1 eq_refl) as (Hclear & _).
  rewrite Hclear. reflexivity.
Defined.

Section existing_states.
Implicit Types (g : NESendoGUI.t) (slot : Z) (l : list Z).

(** What [load_state_from_file] returns does not depend on the trace
    and on the slots. *)
Lemma load_state_from_file_value g (u : list ui_event)
    (s : gmap Z (gmap string pyval)) (path : string) :
  (NESendoGUI.load_state_from_file path
     (NESendoGUI.with_ui u (NESendoGUI.with_state_slots s g))).1
  = (NESendoGUI.load_state_from_file path g).1.
Proof.
  destruct g as [rom oth act keys ae ao ad slots dir fs uw tr ui].
  unfold NESendoGUI.load_state_from_file. run.
  destruct (fs !! path) as [[d| |]|]; [|done..].
  destruct (is_None (get d "ram")), (is_None (get d "controllers"));
    try destruct (NESendoGUI.load_ram d);
    try destruct (NESendoGUI.load_controllers d); done.
Qed.

Lemma load_state_from_file_corrupt g (path : string) :
  NESendoGUI.files g !! path = Some Corrupt →
  NESendoGUI.load_state_from_file path g
    = (Raise UnpicklingError,
       NESendoGUI.with_ui
         (Printed "Error loading state file" :: NESendoGUI.ui g) g).
Proof.
  intros Hfile.
  destruct g as [rom oth act keys ae ao ad slots dir fs uw tr ui]; simpl in Hfile.
  unfold NESendoGUI.load_state_from_file. run. by rewrite Hfile.
Qed.

Lemma load_state_from_file_missing g (path : string) :
  NESendoGUI.files g !! path = None →
  NESendoGUI.load_state_from_file path g
    = (Raise (OSError path),
       NESendoGUI.with_ui
         (Printed "Error loading state file" :: NESendoGUI.ui g) g).
Proof.
  intros Hfile.
  destruct g as [rom oth act keys ae ao ad slots dir fs uw tr ui]; simpl in Hfile.
  unfold NESendoGUI.load_state_from_file. run. by rewrite Hfile.
Qed.

(** One round of the loop of [load_existing_states]. *)
Lemma load_existing_state_effect g slot :
  ∃ prints slots',
    Window.load_existing_state slot g
      = (Ok tt,
         NESendoGUI.with_ui (prints ++ NESendoGUI.ui g)
           (NESendoGUI.with_state_slots slots' g)) ∧
    (∀ other, other ≠ slot → slots' !! other = NESendoGUI.state_slots g !! other) ∧
    slots' !! slot
      = match (NESendoGUI.load_state_from_file (Window.slot_file g slot) g).1 with
        | Ok loaded => Some loaded
        | _ => NESendoGUI.state_slots g !! slot
        end.
Proof.
  cbv beta iota zeta delta
    [Window.load_existing_state mbind M_bind gets try_except NESendoGUI.set_slot
     modify NESendoGUI.show pass mret M_ret].
  destruct (NESendoGUI.files g !! Window.slot_file g slot) as [[d| |]|] eqn:Hf.
  - rewrite bool_decide_eq_true_2 by eauto.
    destruct (load_state_from_file_pickled g _ d Hf) as (loaded & prints & -> & _).
    exists prints, (<[slot := loaded]> (NESendoGUI.state_slots g)). split_and!.
    + by destruct g.
    + intros other Hne. by rewrite lookup_insert_ne.
    + by rewrite lookup_insert_eq.
  - rewrite bool_decide_eq_true_2 by eauto.
    rewrite (load_state_from_file_corrupt g _ Hf).
    exists [Printed "Failed to load state slot"; Printed "Error loading state file"],
           (NESendoGUI.state_slots g).
    split_and!; [by destruct g | done | done].
  - rewrite bool_decide_eq_true_2 by eauto.
    rewrite (load_state_from_file_truncated g _ Hf).
    exists [Printed "Failed to load state slot"; Printed "Error loading state file"],
           (NESendoGUI.state_slots g).
    split_and!; [by destruct g | done | done].
  - rewrite bool_decide_eq_false_2 by (by intros [? ?]).
    rewrite (load_state_from_file_missing g _ Hf).
    exists [], (NESendoGUI.state_slots g).
    split_and!; [by destruct g | done | done].
Qed.

(** The loop of [load_existing_states] over slots that are all
    different. *)
Lemma load_existing_states_loop l g :
  NoDup l →
  ∃ prints slots',
    for_each l Window.load_existing_state g
      = (Ok tt,
         NESendoGUI.with_ui (prints ++ NESendoGUI.ui g)
           (NESendoGUI.with_state_slots slots' g)) ∧
    (∀ slot, slot ∉ l → slots' !! slot = NESendoGUI.state_slots g !! slot) ∧
    (∀ slot, slot ∈ l →
       slots' !! slot
         = match (NESendoGUI.load_state_from_file (Window.slot_file g slot) g).1 with
           | Ok loaded => Some loaded
           | _ => NESendoGUI.state_slots g !! slot
           end).
Proof.
  revert g. induction l as [|x l IH]; intros g Hnd.
  - exists [], (NESendoGUI.state_slots g). split_and!.
    + by destruct g.
    + done.
    + intros slot Hin. by apply elem_of_nil in Hin.
  - apply NoDup_cons in Hnd as [Hx Hnd].
    destruct (load_existing_state_effect g x) as (p1 & s1 & H1 & Hother1 & Hx1).
    set (g1 := NESendoGUI.with_ui (p1 ++ NESendoGUI.ui g)
                 (NESendoGUI.with_state_slots s1 g)) in *.
    destruct (IH g1 Hnd) as (p2 & s2 & H2 & Hout2 & Hin2).
    exists (p2 ++ p1), s2. split_and!.
    + change (for_each (x :: l) Window.load_existing_state g)
        with ((Window.load_existing_state x;;
               for_each l Window.load_existing_state) g).
      unfold mbind, M_bind. rewrite H1. fold g1. rewrite H2.
      subst g1. destruct g. simpl. by rewrite (assoc_L (++)).
    + intros slot [Hne Hnin]%not_elem_of_cons.
      rewrite (Hout2 slot Hnin). subst g1. destruct g; simpl. by apply Hother1.
    + intros slot [->|Hin]%elem_of_cons.
      * rewrite (Hout2 x Hx). subst g1. destruct g; simpl. exact Hx1.
      * rewrite (Hin2 slot Hin). subst g1.
        rewrite load_state_from_file_value.
        replace (Window.slot_file
                   (NESendoGUI.with_ui (p1 ++ NESendoGUI.ui g)
                      (NESendoGUI.with_state_slots s1 g)) slot)
          with (Window.slot_file g slot) by (by destruct g).
        destruct (NESendoGUI.load_state_from_file (Window.slot_file g slot) g).1;
          [done|..];
          destruct g; simpl; apply Hother1; intros ->; done.
Qed.
(** [load_existing_states] with a ROM: the loop, then the status. *)
Lemma load_existing_states_with_rom g :
  NESendoGUI.no_rom g = false →
  ∃ prints slots',
    Window.load_existing_states g
      = (Ok tt,
         NESendoGUI.with_ui
           (StateStatus (merge_sort Z.le (elements (dom slots')))
              :: prints ++ NESendoGUI.ui g)
           (NESendoGUI.with_state_slots slots' g)) ∧
    (∀ slot, slot ∉ [1; 2; 3; 4] →
       slots' !! slot = NESendoGUI.state_slots g !! slot) ∧
    (∀ slot, slot ∈ [1; 2; 3; 4] →
       slots' !! slot
         = match (NESendoGUI.load_state_from_file
                    (Window.slot_file g slot) g).1 with
           | Ok loaded => Some loaded
           | _ => NESendoGUI.state_slots g !! slot
           end).
Proof.
  intros Hrom.
  destruct (load_existing_states_loop [1; 2; 3; 4] g)
    as (prints & slots' & Hloop & Hout & Hin).
  { repeat (apply NoDup_cons; split; [set_solver|]). apply NoDup_nil_2. }
  exists prints, slots'. split; [|done].
  unfold Window.load_existing_states, mbind, M_bind, gets.
  rewrite Hrom, Hloop. by destruct g.
Qed.

(** With a ROM, [get_state_filename] and [load_existing_states] name
    the file of a slot alike. *)
Lemma get_state_filename_with_rom g slot :
  NESendoGUI.no_rom g = false →
  NESendoGUI.get_state_filename (Some slot) None g = Some (Window.slot_file g slot).
Proof.
  intros Hrom. unfold NESendoGUI.get_state_filename, Window.slot_file.
  cbn -[path_join pretty]. by rewrite Hrom.
Qed.
End existing_states.

(** X13. [load_existing_states] never fails.  With no ROM it does
    nothing.  With a ROM it only touches the slots 1 to 4: a slot whose
    state file can be read gets the record of the file, a slot whose
    file is missing or is not a pickle keeps what it had; every other
    slot, the files and the core stay as they are. *)
Theorem load_existing_states_fills_the_slots_that_have_a_file (g : NESendoGUI.t) :
  (NESendoGUI.no_rom g = true → Window.load_existing_states g = (Ok tt, g)) ∧
  (NESendoGUI.no_rom g = false →
   ∃ prints slots',
     Window.load_existing_states g
       = (Ok tt,
          NESendoGUI.with_ui
            (StateStatus (merge_sort Z.le (elements (dom slots')))
               :: prints ++ NESendoGUI.ui g)
            (NESendoGUI.with_state_slots slots' g)) ∧
     (∀ slot, slot ∉ [1; 2; 3; 4] →
        slots' !! slot = NESendoGUI.state_slots g !! slot) ∧
     (∀ slot, slot ∈ [1; 2; 3; 4] →
        slots' !! slot
          = match (NESendoGUI.load_state_from_file
                     (Window.slot_file g slot) g).1 with
            | Ok loaded => Some loaded
            | _ => NESendoGUI.state_slots g !! slot
            end)).
Proof.
  split; intros Hrom.
  - destruct g as [rom oth act keys ae ao ad slots dir fs uw tr ui].
    unfold Window.load_existing_states. run. simpl in Hrom.
    unfold NESendoGUI.no_rom in Hrom. simpl in Hrom. by rewrite Hrom.
  - by apply load_existing_states_with_rom.
Qed.

(** ** State files *)

Section state_files.
Implicit Types (g : NESendoGUI.t) (slot : Z) (a b s t : string).

Lemma string_app_length s t : String.length (s +:+ t) = (String.length s + String.length t)%nat.
Proof. induction s as [|c s IH]; simpl; [done | by rewrite IH]. Qed.

Lemma string_app_inv_tail s1 s2 t : s1 +:+ t = s2 +:+ t → s1 = s2.
Proof.
  revert s2. induction s1 as [|c s1 IH]; intros [|c2 s2] H; simpl in *.
  - done.
  - apply (f_equal String.length) in H.
    rewrite ?string_app_length in H. simpl in H.
    rewrite ?string_app_length in H. lia.
  - apply (f_equal String.length) in H.
    rewrite ?string_app_length in H. simpl in H.
    rewrite ?string_app_length in H. lia.
  - injection H as -> H. f_equal. by apply IH.
Qed.

Lemma path_join_cons a (c : ascii) s :
  path_join a (String c s)
  = if Ascii.eqb c "/"%char then String c s
    else match reverse (String.list_ascii_of_string a) with
         | [] => String c s
         | d :: _ => if Ascii.eqb d "/"%char then a +:+ String c s
                     else a +:+ "/" +:+ String c s
         end.
Proof. unfold path_join. by destruct c as [[] [] [] [] [] [] [] []]. Qed.

Lemma path_join_inj_tail a (c : ascii) s t :
  path_join a (String c s) = path_join a (String c t) → s = t.
Proof.
  rewrite !path_join_cons.
  destruct (Ascii.eqb c "/"%char).
  - by intros [= ->].
  - destruct (reverse (String.list_ascii_of_string a)) as [|d ?].
    + by intros [= ->].
    + destruct (Ascii.eqb d "/"%char).
      * intros H%String.app_inj. by injection H.
      * intros H%String.app_inj. simpl in H. by injection H.
Qed.

(** Two slots with the same state file are the same slot. *)
Lemma get_state_filename_inj g (slot1 slot2 : Z) :
  NESendoGUI.get_state_filename (Some slot1) None g
    = NESendoGUI.get_state_filename (Some slot2) None g →
  slot1 = slot2.
Proof.
  unfold NESendoGUI.get_state_filename. cbn -[path_join pretty]. intros [= H].
  set (name := if NESendoGUI.no_rom g then _ else _) in H. clearbody name.
  apply (inj pretty), (string_app_inv_tail _ _ ".state").
  destruct name as [|c name]; cbn -[path_join pretty] in H;
    apply path_join_inj_tail in H.
  - by injection H.
  - apply String.app_inj in H. by injection H.
Qed.
End state_files.

(** X14. In a running session with a ROM, a state saved to one of the
    slots 1 to 4 whose file can be written is found again from the file
    alone: after [clear_states] has emptied the slots,
    [load_existing_states] returns and puts in the slot the record read
    from the file that [save_state] wrote, with the ROM, the RAM, the
    controllers, the flag and the time stamp of the save, and without
    the screen. *)
Theorem saved_slot_is_found_again_from_its_file
    (g : NESendoGUI.t) (th : EmulationThread.t) (e : NESEnv.t)
    (slot : Z) (now : float) :
  NESendoGUI.session g = Some (th, e) →
  NESendoGUI.no_rom g = false →
  slot ∈ [1; 2; 3; 4] →
  Window.slot_file g slot ∉ NESendoGUI.unwritable g →
  let g1 := (NESendoGUI.clear_states (NESendoGUI.save_state slot now g).2).2 in
  NESendoGUI.state_slots g1 = ∅ ∧
  (Window.load_existing_states g1).1 = Ok tt ∧
  ∃ loaded,
    NESendoGUI.state_slots (Window.load_existing_states g1).2 !! slot = Some loaded ∧
    loaded !! "rom_path" = Some (pyval_of_rom_path (NESendoGUI.rom_path g)) ∧
    loaded !! "ram" = Some (array_of_bytes (NESEnv.ram (NESEnv.live e))) ∧
    loaded !! "controllers"
      = Some (VList [array_of_bytes (NESEnv.controllers (NESEnv.live e)).1;
                     array_of_bytes (NESEnv.controllers (NESEnv.live e)).2]) ∧
    loaded !! "done" = Some (NESEnv.done e) ∧
    loaded !! "timestamp" = Some (VFloat now) ∧
    loaded !! "screen" = None.
Proof.
  intros Hs Hrom Hslot Hw g1.
  destruct (save_state_session g th e slot now Hs) as (path & d & Hpath & Hd & Hsave).
  rewrite (get_state_filename_with_rom g slot Hrom) in Hpath. injection Hpath as <-.
  rewrite (bool_decide_eq_false_2 _ Hw) in Hsave. cbv zeta in Hsave.
  assert (NESendoGUI.no_rom g1 = false ∧
          NESendoGUI.state_slots g1 = ∅ ∧
          Window.slot_file g1 slot = Window.slot_file g slot ∧
          NESendoGUI.files g1 !! Window.slot_file g slot = Some (Pickled d))
    as (Hrom1 & Hslots1 & Hname1 & Hfile1).
  { subst g1. rewrite Hsave.
    destruct g as [rom oth act keys ae ao ad slots dir fs uw tr ui].
    split_and!; try done. simpl. by rewrite lookup_insert_eq. }
  split; [done|].
  destruct (load_existing_states_with_rom g1 Hrom1)
    as (prints & slots' & -> & _ & Hin).
  split; [done|].
  destruct (load_state_from_file_capture g1 (NESendoGUI.rom_path g)
              (NESEnv._backup e) now _ d Hd Hfile1) as (loaded & Hload & Hfields).
  exists loaded. split; [|exact Hfields].
  replace (NESendoGUI.state_slots _) with slots' by (by destruct g1).
  by rewrite (Hin slot Hslot), Hname1, Hload.
Qed.

(** On the example session, for slot 1. *)
Lemma saved_slot_is_found_again_from_its_file_witness :
  (Window.load_existing_states
     (NESendoGUI.clear_states
        (NESendoGUI.save_state 1 1%float Example.gui0).2).2).1 = Ok tt.
Proof.
  refine (proj1 (proj2 (saved_slot_is_found_again_from_its_file
            Example.gui0 Example.thread0 Example.env0 1 1%float
            eq_refl eq_refl _ _))).
  - by left.
  - vm_compute. set_solver.
Defined.

(** X15. Two different slots never share a state file, whatever the
    ROM and the state directory are; so in a running session
    [save_state] to one slot leaves the file of every other slot as it
    is. *)
Theorem saving_a_slot_leaves_the_files_of_the_other_slots
    (g : NESendoGUI.t) (th : EmulationThread.t) (e : NESEnv.t)
    (slot other : Z) (now : float) :
  NESendoGUI.session g = Some (th, e) →
  slot ≠ other →
  NESendoGUI.get_state_filename (Some slot) None g
    ≠ NESendoGUI.get_state_filename (Some other) None g ∧
  ∀ path, NESendoGUI.get_state_filename (Some other) None g = Some path →
          NESendoGUI.files (NESendoGUI.save_state slot now g).2 !! path
            = NESendoGUI.files g !! path.
Proof.
  intros Hs Hne.
  assert (NESendoGUI.get_state_filename (Some slot) None g
            ≠ NESendoGUI.get_state_filename (Some other) None g) as Hnames.
  { intros Heq. by apply Hne, (get_state_filename_inj g). }
  split; [done|]. intros path Hpath.
  destruct (save_state_session g th e slot now Hs) as (p & d & Hp & _ & ->).
  cbv zeta. rewrite Hp, Hpath in Hnames.
  destruct (bool_decide (p ∈ NESendoGUI.unwritable g));
    [destruct (bool_decide (p ∈ NESendoGUI.truncating g))|];
    destruct g; simpl; try done; apply lookup_insert_ne; congruence.
Qed.

(** On the example session: the files of the slots 1 and 2. *)
Lemma saving_a_slot_leaves_the_files_of_the_other_slots_witness :
  NESendoGUI.get_state_filename (Some 1) None Example.gui0
    ≠ NESendoGUI.get_state_filename (Some 2) None Example.gui0.
Proof.
  refine (proj1 (saving_a_slot_leaves_the_files_of_the_other_slots
                   Example.gui0 Example.thread0 Example.env0 1 2 1%float
                   eq_refl _)).
  discriminate.
Defined.

(** ** Recent files and loading a ROM *)

Section recent_files.
Implicit Types (x y file_path : string) (l files : list string) (w : Window.t).

Lemma remove_first_sublist x l : sublist (remove_first x l) l.
Proof.
  induction l as [|y l IH]; simpl; [done|].
  destruct (decide (x = y)); [by apply sublist_cons | by apply sublist_skip].
Qed.

Lemma remove_first_not_in x l : NoDup l → x ∉ remove_first x l.
Proof.
  induction 1 as [|y l Hy Hnd IH]; simpl; [set_solver|].
  destruct (decide (x = y)) as [->|Hne]; [done|].
  apply not_elem_of_cons. split; [done|]. exact IH.
Qed.

Lemma remove_first_other x y l : y ≠ x → y ∈ l → y ∈ remove_first x l.
Proof.
  intros Hne. induction l as [|z l IH]; simpl; [done|].
  intros [->|Hin]%elem_of_cons.
  - destruct (decide (x = z)); [congruence | by left].
  - destruct (decide (x = z)); [done | right; by apply IH].
Qed.

Lemma remove_first_length x l :
  x ∈ l → S (length (remove_first x l)) = length l.
Proof.
  induction l as [|y l IH]; simpl; [by intros ?%elem_of_nil|].
  intros Hin. destruct (decide (x = y)) as [->|Hne]; [done|].
  simpl. f_equal. apply IH. by apply elem_of_cons in Hin as [?|?].
Qed.

Lemma added_recent_eq file_path files :
  Window.added_recent file_path files
  = file_path :: take 9 (if bool_decide (file_path ∈ files)
                         then remove_first file_path files else files).
Proof. done. Qed.
End recent_files.

(** X16. On a list of recent files without duplicates,
    [add_to_recent_files] puts the file first and keeps the list
    without duplicates and at most ten long; the files behind it are
    files of the old list in their old order, none of them is lost
    while the old list has fewer than ten, and the stored settings and
    the menu are those of the new list.  The window itself is not
    touched. *)
Theorem add_to_recent_files_puts_the_file_first
    (file_path : string) (w : Window.t) :
  NoDup (Window.recent_files w) →
  let w' := (Window.add_to_recent_files file_path w).2 in
  (Window.add_to_recent_files file_path w).1 = Ok tt ∧
  head (Window.recent_files w') = Some file_path ∧
  NoDup (Window.recent_files w') ∧
  (length (Window.recent_files w') ≤ 10)%nat ∧
  (tail (Window.recent_files w') `sublist_of` Window.recent_files w) ∧
  ((length (Window.recent_files w) < 10)%nat →
   ∀ x, x ∈ Window.recent_files w → x ∈ Window.recent_files w') ∧
  Window.stored_recent w' = Window.recent_files w' ∧
  Window.recent_menu w' = Window.recent_labels (Window.recent_files w') ∧
  Window.gui w' = Window.gui w.
Proof.
  intros Hnd. destruct w as [g files stored menu mv ov cv]. simpl in Hnd.
  cbn -[Window.added_recent Window.recent_labels].
  rewrite added_recent_eq.
  set (rest := if bool_decide (file_path ∈ files)
               then remove_first file_path files else files).
  assert (rest `sublist_of` files) as Hsub.
  { subst rest. destruct (bool_decide _); [apply remove_first_sublist | done]. }
  assert (file_path ∉ rest) as Hnot.
  { subst rest. destruct (bool_decide_reflect (file_path ∈ files));
      [by apply remove_first_not_in | done]. }
  split_and!; try done.
  - apply NoDup_cons. split.
    + intros Hin. apply Hnot. eapply elem_of_sublist; [exact Hin | apply sublist_take].
    + eapply sublist_NoDup; [exact Hnd|]. etrans; [apply sublist_take | done].
  - simpl. rewrite length_take. lia.
  - simpl. etrans; [apply sublist_take | done].
  - intros Hlen x Hx. destruct (decide (x = file_path)) as [->|Hne]; [by left|].
    right. rewrite take_ge.
    + subst rest. destruct (bool_decide _); [by apply remove_first_other | done].
    + apply sublist_length in Hsub. lia.
Qed.

(** A file that is second in the list comes first. *)
Lemma add_to_recent_files_puts_the_file_first_witness :
  head (Window.recent_files
          (Window.add_to_recent_files "/roms/b.nes"
             (Window.Win Example.gui0 ["/roms/a.nes"; "/roms/b.nes"]%string [] []
                1%float None None)).2)
  = Some "/roms/b.nes"%string.
Proof.
  refine (proj1 (proj2 (add_to_recent_files_puts_the_file_first "/roms/b.nes"
                (Window.Win Example.gui0 ["/roms/a.nes"; "/roms/b.nes"]%string [] []
                   1%float None None) _))).
  simpl. by apply (bool_decide_unpack _).
Defined.

(** X17. [load_recent_rom] on a file that no longer exists, the list
    of recent files having no duplicates: the file is no longer in the
    list, every other file stays in its place, the settings and the
    menu follow when the file was in the list, and the window only
    shows the "File Not Found" warning: the ROM, the emulation and the
    slots are as before. *)
Theorem load_recent_rom_forgets_a_missing_file
    (file_path : string) (latency : option nat) (w : Window.t) :
  NoDup (Window.recent_files w) →
  let w' := (Window.load_recent_rom file_path false latency w).2 in
  (Window.load_recent_rom file_path false latency w).1 = Ok tt ∧
  (file_path ∉ Window.recent_files w') ∧
  (∀ x, x ≠ file_path → x ∈ Window.recent_files w → x ∈ Window.recent_files w') ∧
  (Window.recent_files w' `sublist_of` Window.recent_files w) ∧
  (file_path ∈ Window.recent_files w →
   Window.stored_recent w' = Window.recent_files w' ∧
   Window.recent_menu w' = Window.recent_labels (Window.recent_files w')) ∧
  Window.gui w'
    = NESendoGUI.with_ui
        (MsgWarning "File Not Found" :: NESendoGUI.ui (Window.gui w)) (Window.gui w).
Proof.
  intros Hnd. destruct w as [g files stored menu mv ov cv]. simpl in Hnd.
  unfold Window.load_recent_rom. run_all.
  destruct (bool_decide_reflect (file_path ∈ files)) as [Hin|Hin]; run_all.
  - split_and!; try done.
    + by apply remove_first_not_in.
    + intros x Hne Hx. by apply remove_first_other.
    + apply remove_first_sublist.
  - split_and!; try done.
Qed.

(** A file of the list that is gone. *)
Lemma load_recent_rom_forgets_a_missing_file_witness :
  Window.recent_files
    (Window.load_recent_rom "/roms/b.nes" false None
       (Window.Win Example.gui0 ["/roms/a.nes"; "/roms/b.nes"]%string [] []
          1%float None None)).2
  `sublist_of` ["/roms/a.nes"; "/roms/b.nes"]%string.
Proof.
  refine (proj1 (proj2 (proj2 (proj2
            (load_recent_rom_forgets_a_missing_file "/roms/b.nes" None
                (Window.Win Example.gui0 ["/roms/a.nes"; "/roms/b.nes"]%string [] []
                   1%float None None) _))))).
  simpl. by apply (bool_decide_unpack _).
Defined.

(** X18. [load_rom] with a cancelled dialog does nothing.  With a
    file, and an emulation thread (if one is running) that reacts to
    the exit flag, it returns with the file as the ROM, the slots
    emptied, a fresh thread started on the file, the state files as
    they were and the file first in the recent files;
    [load_recent_rom] on an existing file leaves the same window and
    does not touch the recent files. *)
Theorem load_rom_switches_to_the_new_rom
    (file_path : string) (latency : option nat) (w : Window.t) :
  file_path ≠ ""%string →
  (∀ th, NESendoGUI.emulation_thread (Window.gui w) = Some th →
         EmulationThread.isRunning th = true →
         is_Some (EmulationThread.exit_latency th)) →
  let w' := (Window.load_rom file_path latency w).2 in
  Window.load_rom ""%string latency w = (Ok tt, w) ∧
  (Window.load_rom file_path latency w).1 = Ok tt ∧
  NESendoGUI.rom_path (Window.gui w') = Some file_path ∧
  NESendoGUI.state_slots (Window.gui w') = ∅ ∧
  NESendoGUI.emulation_thread (Window.gui w')
    = Some (EmulationThread.start latency (EmulationThread.init file_path)) ∧
  NESendoGUI.files (Window.gui w') = NESendoGUI.files (Window.gui w) ∧
  Window.recent_files w' = Window.added_recent file_path (Window.recent_files w) ∧
  Window.gui (Window.load_recent_rom file_path true latency w).2 = Window.gui w' ∧
  Window.recent_files (Window.load_recent_rom file_path true latency w).2
    = Window.recent_files w.
Proof.
  intros Hpath%String.eqb_neq Hlive.
  destruct w as [g files stored menu mv ov cv].
  destruct g as [rom oth act keys ae ao ad slots dir fs uw tr ui].
  simpl in Hlive. split; [done|].
  unfold Window.load_rom, Window.load_recent_rom. rewrite Hpath.
  destruct oth as [[trom oe run paused ff ffs tact fps fd [] lat]|].
  - destruct (Hlive _ eq_refl eq_refl) as [ms Hms]. simpl in Hms. subst lat.
    run_all. rewrite Hpath. run_all. done.
  - run_all. rewrite Hpath. run_all. done.
  - run_all. rewrite Hpath. run_all. done.
Qed.

(** On the example window, while the emulation runs. *)
Lemma load_rom_switches_to_the_new_rom_witness :
  NESendoGUI.rom_path
    (Window.gui (Window.load_rom "/roms/zelda.nes" (Some 5%nat)
                   ExampleWindow.window0).2)
  = Some "/roms/zelda.nes"%string.
Proof.
  refine (proj1 (proj2 (proj2 (load_rom_switches_to_the_new_rom
            "/roms/zelda.nes" (Some 5%nat) ExampleWindow.window0 _ _)))).
  - discriminate.
  - intros th [= <-] _. by eexists.
Defined.

(** ** Volume *)

Section volume.
Local Open Scope float_scope.
Implicit Types x y : float.

Lemma clamp_unit_range x :
  (0 <=? py_max 0 (py_min 1 x)) = true ∧ (py_max 0 (py_min 1 x) <=? 1) = true.
Proof.
  unfold py_max, py_min. destruct (x <? 1) eqn:H1.
  - destruct (0 <? x) eqn:H0; [|done].
    split; by apply ltb_leb.
  - done.
Qed.
End volume.

(** X19. [set_audio_volume] stores a volume between 0.0 and 1.0 for
    every float: the volume itself strictly between the two, 1.0 for
    everything that is not below 1.0 (the infinity and not-a-number
    too) and 0.0 for everything else; the audio output and the core get
    that same value when they exist and nothing otherwise, and nothing
    else of the window changes.  [mute_audio] stores 0.0 and says
    so. *)
Theorem audio_volume_is_clamped_to_the_unit_interval
    (volume : float) (w : Window.t) :
  let w' := Window.set_audio_volume volume w in
  let v := Window.master_volume w' in
  (0 <=? v)%float = true ∧ (v <=? 1)%float = true ∧
  ((0 <? volume)%float = true → (volume <? 1)%float = true → v = volume) ∧
  ((volume <? 1)%float = false → v = 1%float) ∧
  ((0 <? volume)%float = false → (volume <? 1)%float = true → v = 0%float) ∧
  (NESendoGUI.audio_output (Window.gui w) = true → Window.output_volume w' = Some v) ∧
  (NESendoGUI.audio_output (Window.gui w) = false →
   Window.output_volume w' = Window.output_volume w) ∧
  (is_Some (NESendoGUI.the_env (Window.gui w)) → Window.core_volume w' = Some v) ∧
  (NESendoGUI.the_env (Window.gui w) = None →
   Window.core_volume w' = Window.core_volume w) ∧
  Window.gui w' = Window.gui w ∧
  Window.recent_files w' = Window.recent_files w ∧
  (Window.mute_audio w).1 = Ok tt ∧
  Window.master_volume (Window.mute_audio w).2 = 0%float ∧
  NESendoGUI.ui (Window.gui (Window.mute_audio w).2)
    = StatusMessage "Audio muted" :: NESendoGUI.ui (Window.gui w).
Proof.
  destruct w as [g files stored menu mv ov cv].
  cbn -[PrimFloat.leb PrimFloat.ltb py_max py_min NESendoGUI.the_env
        Window.mute_audio].
  destruct (clamp_unit_range volume) as [Hlo Hhi].
  split_and!; try done.
  - intros H0 H1. unfold py_max, py_min. by rewrite H1, H0.
  - intros H1. unfold py_max, py_min. by rewrite H1.
  - intros H0 H1. unfold py_max, py_min. by rewrite H1, H0.
  - by intros ->.
  - by intros ->.
  - by intros [e ->].
  - by intros ->.
Qed.

(** ** Audio bytes *)


Lemma tobytes_cons (z : Z) (pcm : list Z) :
  tobytes (z :: pcm) = z `mod` 256 :: (z `div` 256) `mod` 256 :: tobytes pcm.
Proof. done. Qed.

(** X20. With audio enabled and an output: when the device at hand is
    open, or there is none yet and [start()] gives an open one,
    [play_audio] returns and appends to what the device was given the
    bytes of the chunk, all of them and in order, two for each sample,
    in writes that are never empty and never longer than 512 bytes;
    when the device at hand is not open, or there is none and
    [start()] gives none or one that is not open, [play_audio] returns
    and nothing is written and nothing is shown. *)
Theorem audio_is_written_whole_in_chunks_of_512
    (data : audio_data) (started : option bool) (g : NESendoGUI.t)
    (heard : list (list Z)) :
  NESendoGUI.audio_enabled g = true →
  NESendoGUI.audio_output g = true →
  let pcm := match data with
             | FloatSamples samples => float_to_int16 samples
             | Int16Samples samples => samples
             end in
  ((NESendoGUI.audio_device g = None ∧ started = Some true ∧ heard = []) ∨
   NESendoGUI.audio_device g = Some (IODevice true heard) →
   (NESendoGUI.play_audio data started g).1 = Ok tt ∧
   ∃ chunks,
     NESendoGUI.audio_device (NESendoGUI.play_audio data started g).2
       = Some (IODevice true (heard ++ chunks)) ∧
     concat chunks = tobytes pcm ∧
     Forall (λ c, (0 < length c ≤ 512)%nat) chunks ∧
     length (tobytes pcm) = (2 * length pcm)%nat) ∧
  (match NESendoGUI.audio_device g with
   | Some d => isOpen d = false
   | None => started ≠ Some true
   end →
   (NESendoGUI.play_audio data started g).1 = Ok tt ∧
   NESendoGUI.audio_device (NESendoGUI.play_audio data started g).2
     = match NESendoGUI.audio_device g with
       | Some d => Some d
       | None => (λ o, IODevice o []) <$> started
       end ∧
   NESendoGUI.ui (NESendoGUI.play_audio data started g).2 = NESendoGUI.ui g).
Proof.
  intros Hen Hout pcm. split.
  - intros Hdev. rewrite (play_audio_writes data started g heard Hen Hout Hdev).
    split; [done|]. exists (chunks_of 512 (tobytes pcm)). split_and!.
    + by destruct g.
    + apply chunks_of_concat. lia.
    + apply chunks_of_sizes. lia.
    + clearbody pcm. induction pcm as [|z pcm' IH]; [done|].
      rewrite tobytes_cons. simpl. rewrite IH. lia.
  - by apply play_audio_drops.
Qed.

(** X21. The two bytes that [tobytes] gives for a sample of the 16-bit
    range are its low byte and then its high byte: read back as a
    little-endian two's complement number they are the sample. *)
Theorem sample_bytes_are_little_endian (pcm : list Z) (i : nat) (z : Z) :
  pcm !! i = Some z →
  -32768 ≤ z < 32768 →
  ∃ lo hi,
    tobytes pcm !! (2 * i)%nat = Some lo ∧
    tobytes pcm !! (2 * i + 1)%nat = Some hi ∧
    0 ≤ lo < 256 ∧ 0 ≤ hi < 256 ∧
    wrap_int16 (lo + 256 * hi) = z.
Proof.
  revert i. induction pcm as [|x pcm IH]; intros i Hi Hz; [done|].
  rewrite tobytes_cons. destruct i as [|i]; simpl in Hi.
  - injection Hi as ->. eexists _, _.
    split; [done|]. split; [done|].
    split; [apply Z.mod_pos_bound; lia|].
    split; [apply Z.mod_pos_bound; lia|].
    unfold wrap_int16. rewrite <- (Z.rem_mul_r z 256 256) by lia.
      change (256 * 256) with 65536.
      rewrite Zplus_mod_idemp_l, Z.mod_small by lia. lia.
  - destruct (IH i Hi Hz) as (lo & hi & Hlo & Hhi & Hrest).
    exists lo, hi. split; [|split; [|exact Hrest]].
    + by replace (2 * S i)%nat with (S (S (2 * i))) by lia.
    + by replace (2 * S i + 1)%nat with (S (S (2 * i + 1))) by lia.
Qed.

(** The bytes of the second of two samples, a negative one. *)
Lemma sample_bytes_are_little_endian_witness :
  ∃ lo hi,
    tobytes [300; -2] !! 2%nat = Some lo ∧
    tobytes [300; -2] !! 3%nat = Some hi ∧
    0 ≤ lo < 256 ∧ 0 ≤ hi < 256 ∧
    wrap_int16 (lo + 256 * hi) = -2.
Proof.
  apply (sample_bytes_are_little_endian [300; -2] 1 (-2)).
  - reflexivity.
  - lia.
Defined.

(** On the example session. *)
Lemma audio_is_written_whole_in_chunks_of_512_witness :
  (NESendoGUI.play_audio (Int16Samples [300; -2]) (Some true) Example.gui0).1
    = Ok tt.
Proof.
  refine (proj1 (proj1 (audio_is_written_whole_in_chunks_of_512
                          (Int16Samples [300; -2]) (Some true) Example.gui0 []
                          eq_refl eq_refl) _)).
  left. split_and!; reflexivity.
Defined.

(** ** Closing, restarting and pacing *)

(** X22. [closeEvent] on a window with an emulation thread: when the
    thread has finished or reacts to the exit flag, the window closes
    with the thread stopped (but still referenced), the audio output
    and device released, and the slots and files as they were; when the
    thread is stuck in its loop, [closeEvent] does not return, and the
    audio is not released. *)
Theorem close_event_stops_the_thread_and_releases_the_audio
    (g : NESendoGUI.t) (th : EmulationThread.t) :
  NESendoGUI.emulation_thread g = Some th →
  (EmulationThread.isRunning th = false ∨ is_Some (EmulationThread.exit_latency th) →
   let g' := (Window.closeEvent g).2 in
   (Window.closeEvent g).1 = Ok tt ∧
   NESendoGUI.is_emulation_running g' = false ∧
   (∃ th', NESendoGUI.emulation_thread g' = Some th' ∧
           EmulationThread.running th' = false) ∧
   NESendoGUI.audio_output g' = false ∧
   NESendoGUI.audio_device g' = None ∧
   NESendoGUI.state_slots g' = NESendoGUI.state_slots g ∧
   NESendoGUI.files g' = NESendoGUI.files g) ∧
  (EmulationThread.isRunning th = true → EmulationThread.exit_latency th = None →
   Window.closeEvent g
     = (Blocks,
        NESendoGUI.with_emulation_thread
          (Some (EmulationThread.with_running false th)) g)).
Proof.
  intros Hth.
  destruct g as [rom oth act keys ae ao ad slots dir fs uw tr ui];
    destruct th as [trom oe run paused ff ffs tact fps fd isr lat];
    simpl in Hth; subst. split.
  - intros [Hrun | [ms Hms]]; simpl in *; subst; run_all.
    + split_and!; eauto.
    + destruct isr; run_all; split_and!; eauto.
  - simpl. intros -> ->. reflexivity.
Qed.

(** On the window whose thread is stuck. *)
Lemma close_event_stops_the_thread_and_releases_the_audio_witness :
  Window.closeEvent Example.gui_stuck
  = (Blocks,
     NESendoGUI.with_emulation_thread
       (Some (EmulationThread.with_running false Example.stuck_thread))
       Example.gui_stuck).
Proof.
  exact (proj2 (close_event_stops_the_thread_and_releases_the_audio
                  Example.gui_stuck Example.stuck_thread eq_refl)
           eq_refl eq_refl).
Defined.

(** X23. [start_emulation] on a running emulation with a ROM: when the
    old thread reacts to the exit flag it is stopped and replaced by a
    fresh thread on the same ROM, which has no core yet; the audio
    device is released, and the slots, the files, the held keys and the
    action stay as they were.  When the old thread is stuck,
    [start_emulation] does not return and the old thread stays in
    place. *)
Theorem start_emulation_replaces_a_running_thread
    (g : NESendoGUI.t) (th : EmulationThread.t) (rom : string)
    (latency : option nat) :
  NESendoGUI.emulation_thread g = Some th →
  EmulationThread.isRunning th = true →
  NESendoGUI.rom_path g = Some rom →
  rom ≠ ""%string →
  (is_Some (EmulationThread.exit_latency th) →
   let g' := (NESendoGUI.start_emulation latency g).2 in
   (NESendoGUI.start_emulation latency g).1 = Ok tt ∧
   NESendoGUI.emulation_thread g'
     = Some (EmulationThread.start latency (EmulationThread.init rom)) ∧
   NESendoGUI.the_env g' = None ∧
   NESendoGUI.ui g'
     = [StatusMessage "Emulation started"; StatusMessage "Emulation stopped";
        StatusMessage "Stopping current emulation..."] ++ NESendoGUI.ui g ∧
   NESendoGUI.audio_device g' = None ∧
   NESendoGUI.state_slots g' = NESendoGUI.state_slots g ∧
   NESendoGUI.files g' = NESendoGUI.files g ∧
   NESendoGUI.pressed_keys g' = NESendoGUI.pressed_keys g ∧
   NESendoGUI.current_action g' = NESendoGUI.current_action g) ∧
  (EmulationThread.exit_latency th = None →
   (NESendoGUI.start_emulation latency g).1 = Blocks ∧
   NESendoGUI.emulation_thread (NESendoGUI.start_emulation latency g).2
     = Some (EmulationThread.with_running false th)).
Proof.
  intros Hth Hrun Hrom Hne%String.eqb_neq.
  destruct g as [grom oth act keys ae ao ad slots dir fs uw tr ui];
    destruct th as [trom oe run paused ff ffs tact fps fd isr lat];
    simpl in Hth, Hrun, Hrom; subst. split.
  - intros [ms Hms]. simpl in Hms. subst. run_all. rewrite Hne. run_all. done.
  - simpl. intros ->. run_all. rewrite Hne. run_all. done.
Qed.

(** On the example session. *)
Lemma start_emulation_replaces_a_running_thread_witness :
  NESendoGUI.emulation_thread (NESendoGUI.start_emulation (Some 3%nat) Example.gui0).2
  = Some (EmulationThread.start (Some 3%nat) (EmulationThread.init "/roms/mario.nes")).
Proof.
  refine (proj1 (proj2 (proj1 (start_emulation_replaces_a_running_thread
            Example.gui0 Example.thread0 "/roms/mario.nes" (Some 3%nat)
            eq_refl eq_refl eq_refl _) _))).
  - discriminate.
  - by eexists.
Defined.

(** X24. [pause_emulation], [resume_emulation], [toggle_fastforward]
    and [set_fastforward_speed] of the window do nothing at all unless
    the emulation is running.  On a running emulation, pausing sets the
    pause flag of the thread and resuming clears it, toggling
    fastforward twice gives back the thread as it was, and setting the
    speed stores it clamped in the thread and reports it only while
    fastforward is on. *)
Theorem thread_controls_need_a_running_emulation
    (g : NESendoGUI.t) (speed : float) :
  (NESendoGUI.is_emulation_running g = false →
   Window.pause_emulation g = (Ok tt, g) ∧
   Window.resume_emulation g = (Ok tt, g) ∧
   Window.toggle_fastforward g = (Ok tt, g) ∧
   Window.set_fastforward_speed speed g = (Ok tt, g)) ∧
  (∀ th, NESendoGUI.emulation_thread g = Some th →
         EmulationThread.isRunning th = true →
     NESendoGUI.emulation_thread (Window.pause_emulation g).2
       = Some (EmulationThread.with_paused true th) ∧
     NESendoGUI.emulation_thread
       (Window.resume_emulation (Window.pause_emulation g).2).2
       = Some (EmulationThread.with_paused false th) ∧
     NESendoGUI.emulation_thread
       (Window.toggle_fastforward (Window.toggle_fastforward g).2).2 = Some th ∧
     NESendoGUI.ui (Window.toggle_fastforward (Window.toggle_fastforward g).2).2
       = (if EmulationThread.fastforward th
          then [StatusMessage "Fast forward enabled";
                StatusMessage "Fast forward disabled"]
          else [StatusMessage "Fast forward disabled";
                StatusMessage "Fast forward enabled"]) ++ NESendoGUI.ui g ∧
     NESendoGUI.emulation_thread (Window.set_fastforward_speed speed g).2
       = Some (EmulationThread.set_fastforward_speed speed th) ∧
     NESendoGUI.ui (Window.set_fastforward_speed speed g).2
       = (if EmulationThread.fastforward th
          then [StatusMessage "Fast forward speed set"] else []) ++ NESendoGUI.ui g).
Proof.
  destruct g as [grom oth act keys ae ao ad slots dir fs uw tr ui]. split.
  - destruct oth as [[trom oe run paused ff ffs tact fps fd isr lat]|];
      cbv; [intros ->|]; done.
  - intros th Hth Hrun.
    destruct th as [trom oe run paused ff ffs tact fps fd isr lat];
      simpl in Hth, Hrun; subst.
    run_all. destruct ff; run_all; done.
Qed.
